(** * ocr_translate-hugging_face: the plugin's loader and model adapters

    A shallow embedding of [ocr_translate_hugging_face/plugin.py]:
    - Python values, exceptions and the numeric builtins the plugin uses
      ([int], [float], [min], [max], [*] on a float and an int);
    - [get_mnt], the bound on the number of generated tokens;
    - the calls into the model-hub library ([from_pretrained], [.to],
      tokenizer, [generate], [batch_decode], ...) as an interface, with a
      log of the calls made;
    - [Loaders._load], [Loaders.load], and the two adapters
      [HugginfaceSeq2SeqModel] and [HugginfaceVEDModel];
    - the test doubles of [tests/conftest.py] as one concrete library.

    [logger.debug] and [logger.info] calls have no effect on the values
    computed and are left out. *)

From Stdlib Require Import ZArith QArith Qminmax Floats.SpecFloat Lia Ascii.
From stdpp Require Import base gmap strings list.

Local Open Scope Z_scope.

(** ** Exceptions and results *)

(** The exceptions of the [Exception] hierarchy that the plugin, the Python
    builtins and the library raise; each carries its message.  These are
    what [except Exception] catches. *)
Inductive exn : Type :=
| ValueError (msg : string)
| TypeError (msg : string)
| RuntimeError (msg : string)
| OverflowError (msg : string)
| IndexError (msg : string)
| KeyError (msg : string)
| AttributeError (msg : string)
| FileNotFoundError (msg : string)
| OSError (msg : string).

(** The outcome of evaluating a Python expression: a value, or a raised
    exception. *)
Inductive res (A : Type) : Type :=
| Ok (a : A)
| Raise (e : exn).
Arguments Ok {A} a.
Arguments Raise {A} e.

#[export] Instance res_ret : MRet res := fun A a => Ok a.
#[export] Instance res_bind : MBind res := fun A B f r =>
  match r with
  | Ok a => f a
  | Raise e => Raise e
  end.

Definition is_ValueError (e : exn) : bool :=
  match e with ValueError _ => true | _ => false end.

(** ** Numbers

    Python [int] is unbounded ([Z]); Python [float] is IEEE 754 binary64,
    taken from the Standard Library's specification of floating point
    ([spec_float] with 53 bits of precision and maximal exponent 1024). *)

Definition prec : Z := 53.
Definition emax : Z := 1024.

Inductive num : Type :=
| NInt (z : Z)
| NFloat (f : spec_float).

(** The mantissa of a finite float with its sign. *)
Definition signed (s : bool) (m : positive) : Z :=
  if s then Z.neg m else Z.pos m.

(** The exact rational value of a float that is not NaN or infinite
    (and [0] on those, where it is never used). *)
Definition SF2Q (f : spec_float) : Q :=
  match f with
  | S754_finite s m (Z.neg p) => Qmake (signed s m) (2 ^ p)%positive
  | S754_finite s m e => inject_Z (signed s m * 2 ^ e)
  | _ => 0%Q
  end.

(** Truncation toward zero of a rational, as [int(x)] does on a float. *)
Definition Qtrunc (q : Q) : Z := Z.quot (Qnum q) (Z.pos (Qden q)).

(** [int(x)]: the identity on an [int], truncation toward zero on a finite
    [float]; NaN and the infinities raise. *)
Definition py_int (x : num) : res Z :=
  match x with
  | NInt z => Ok z
  | NFloat S754_nan => Raise (ValueError "cannot convert float NaN to integer")
  | NFloat (S754_infinity _) =>
      Raise (OverflowError "cannot convert float infinity to integer")
  | NFloat f => Ok (Qtrunc (SF2Q f))
  end.

(** The conversion of an [int] to a [float]: round to nearest, ties to
    even; an [int] beyond the range of binary64 raises. *)
Definition int_to_float (z : Z) : res spec_float :=
  match binary_normalize prec emax z 0 false with
  | S754_infinity _ => Raise (OverflowError "int too large to convert to float")
  | f => Ok f
  end.

(** [float(x)]. *)
Definition py_float (x : num) : res spec_float :=
  match x with
  | NInt z => int_to_float z
  | NFloat f => Ok f
  end.

(** [x * n] for a float [x] and an int [n]: the int is converted first, the
    product is the IEEE one. *)
Definition float_mul_int (x : spec_float) (n : Z) : res spec_float :=
  fn ← int_to_float n; mret (SFmul prec emax x fn).

(** The order of Python numbers.  Two ints and two floats compare as such;
    an int and a float compare by exact value, and every comparison with
    NaN is false. *)
Definition float_lt_int (f : spec_float) (z : Z) : bool :=
  match f with
  | S754_nan => false
  | S754_infinity s => s
  | _ => bool_decide (Qcompare (SF2Q f) (inject_Z z) = Lt)
  end.

Definition int_lt_float (z : Z) (f : spec_float) : bool :=
  match f with
  | S754_nan => false
  | S754_infinity s => negb s
  | _ => bool_decide (Qcompare (inject_Z z) (SF2Q f) = Lt)
  end.

Definition py_lt (a b : num) : bool :=
  match a, b with
  | NInt x, NInt y => x <? y
  | NFloat x, NFloat y => SFltb x y
  | NFloat x, NInt y => float_lt_int x y
  | NInt x, NFloat y => int_lt_float x y
  end.

Definition py_gt (a b : num) : bool := py_lt b a.

(** The builtins [max(a, b)] and [min(a, b)] with two arguments: the first
    argument is kept unless the second is strictly greater (smaller). *)
Definition py_max (a b : num) : num := if py_gt b a then b else a.
Definition py_min (a b : num) : num := if py_lt b a then b else a.

(** ** get_mnt *)

(** [options.get(key, default)]. *)
Definition dict_get {V} (d : gmap string V) (key : string) (dflt : V) : V :=
  default dflt (d !! key).

(** The float [3.0]. *)
Definition float_3 : spec_float := S754_finite false 6755399441055744 (-51).

Definition get_mnt (ntok : Z) (options : gmap string num) : res Z :=
  min_max_new_tokens ← py_int (dict_get options "min_max_new_tokens" (NInt 20));
  max_max_new_tokens ← py_int (dict_get options "max_max_new_tokens" (NInt 512));
  max_new_tokens_ratio ←
    py_float (dict_get options "max_new_tokens_ratio" (NFloat float_3));
  if max_max_new_tokens <? min_max_new_tokens then
    Raise (ValueError "min_max_new_tokens must be less than max_max_new_tokens")
  else
    prod ← float_mul_int max_new_tokens_ratio ntok;
    let mnt :=
      py_min (NInt max_max_new_tokens)
        (py_max (NInt min_max_new_tokens) (NFloat prod)) in
    py_int mnt.

(** The bound of the specification, on exact values:
    [min(max_cap, max(min_cap, x))], truncated to an integer. *)
Definition clamp_trunc (min_cap max_cap : Z) (x : Q) : Z :=
  Qtrunc (Qmin (inject_Z max_cap) (Qmax (inject_Z min_cap) x)).

(** The same bound on a float [x]: the exact one where [x] is finite, and
    its limits at the infinities; with NaN every comparison of [min] and
    [max] is false and the lower cap is what remains. *)
Definition mnt_spec (min_cap max_cap : Z) (x : spec_float) : Z :=
  match x with
  | S754_nan => min_cap
  | S754_infinity false => max_cap
  | S754_infinity true => min_cap
  | _ => clamp_trunc min_cap max_cap (SF2Q x)
  end.

(** ** Python values and the library interface *)

(** The values that flow through the adapters.  Tokenizers, models, image
    processors, tensors and encodings are objects of the model-hub library
    and of torch, opaque to the plugin: [VObj]. *)
#[warnings="-register-all"] Inductive value : Type :=
| VNone
| VStr (s : string)
| VInt (z : Z)
| VList (l : list value)
| VImage (id : string)
| VObj (id : string).

Definition is_None (v : value) : bool :=
  match v with VNone => true | _ => false end.

(** [isinstance(v, str)], [isinstance(v, list)] and
    [isinstance(v, Image.Image)]. *)
Definition isinstance_str (v : value) : bool :=
  match v with VStr _ => true | _ => false end.
Definition isinstance_list (v : value) : bool :=
  match v with VList _ => true | _ => false end.
Definition isinstance_Image (v : value) : bool :=
  match v with VImage _ => true | _ => false end.

(** [v[0]]. *)
Definition subscript0 (v : value) : res value :=
  match v with
  | VList (x :: _) => Ok x
  | VList [] => Raise (IndexError "list index out of range")
  | VStr (String c _) => Ok (VStr (String c EmptyString))
  | VStr EmptyString => Raise (IndexError "string index out of range")
  | _ => Raise (TypeError "object is not subscriptable")
  end.

(** A [pathlib.Path]: built from a string, or [p / s]. *)
Inductive path : Type :=
| Path (s : string)
| Truediv (p : path) (s : string).

(** The classes of [Loaders.mapping]. *)
Inductive loader : Type :=
| AutoTokenizer
| VisionEncoderDecoderModel
| AutoModel
| AutoImageProcessor
| AutoModelForSeq2SeqLM.

(** The first argument of [from_pretrained]: a path, or a registry id. *)
Inductive pretrained_name : Type :=
| ByPath (p : path)
| ById (model_id : string).

(** The calls the plugin makes into the library and into torch. *)
Inductive call : Type :=
| FromPretrained (l : loader) (name : pretrained_name) (cache_dir : option path)
    (* l.from_pretrained(name) / l.from_pretrained(name, cache_dir=root) *)
| To (obj : value) (dev : string)
    (* obj.to(dev) *)
| SetSrcLang (tokenizer : value) (src_lang : string)
    (* tokenizer.src_lang = src_lang *)
| Tokenize (tokenizer : value) (tokens : value)
    (* tokenizer(tokens, return_tensors='pt', padding=True, truncation=True,
                 is_split_into_words=True) *)
| InputIdsWidth (encoded : value)
    (* encoded['input_ids'].shape[1] *)
| GetLangId (tokenizer : value) (lang : string)
    (* tokenizer.get_lang_id(lang) *)
| Generate (model : value) (inputs : value) (kwargs : list (string * value))
    (* model.generate with the entries of inputs and of kwargs as keyword
       arguments / model.generate(inputs) *)
| BatchDecode (tokenizer : value) (ids : value)
    (* tokenizer.batch_decode(ids, skip_special_tokens=True) *)
| ImageProcess (image_processor : value) (img : value)
    (* image_processor(img, return_tensors='pt').pixel_values *)
| Cuda (tensor : value)
    (* tensor.cuda() *)
| EmptyCache.
    (* torch.cuda.empty_cache() *)

(** An entry of the log: a call and what the library answered. *)
Definition event : Type := call * res value.

(** The objects that successful [from_pretrained] calls returned, and the
    objects that were moved with [.to], each with its device, in the order
    of the log. *)
Fixpoint loaded_of (log : list event) : list value :=
  match log with
  | [] => []
  | (FromPretrained _ _ _, Ok v) :: log' => v :: loaded_of log'
  | _ :: log' => loaded_of log'
  end.

Fixpoint moved_of (log : list event) : list (value * string) :=
  match log with
  | [] => []
  | (To obj dev, _) :: log' => (obj, dev) :: moved_of log'
  | _ :: log' => moved_of log'
  end.

(** ** Computations over a library *)

(** The state a computation runs in: the library's own state, and the log
    of the calls made so far. *)
Record world (backend : Type) : Type := World {
  backend_of : backend;
  calls : list event
}.
Arguments World {backend} _ _.
Arguments backend_of {backend} _.
Arguments calls {backend} _.

(** Computations: they may call the library and may raise. *)
Definition M (backend A : Type) : Type := world backend → res A * world backend.

#[export] Instance M_ret {backend} : MRet (M backend) := fun A a w => (Ok a, w).
#[export] Instance M_bind {backend} : MBind (M backend) := fun A B f m w =>
  match m w with
  | (Ok a, w') => f a w'
  | (Raise e, w') => (Raise e, w')
  end.

(** A method that assigns to fields of [self]: the assignments made are
    kept also when the method raises. *)
Definition Method (backend Self A : Type) : Type :=
  Self → world backend → res A * Self * world backend.

(** The adapters of the plugin. [name] comes from the host's database
    model, [dev] and [root] from [EnvMixin], which reads the environment
    variables DEVICE (default cpu) and TRANSFORMERS_CACHE (default the
    current directory); the other fields are the loaded artifacts. *)
Record Seq2SeqModel : Type := Seq2Seq {
  tsl_name : string;
  tsl_dev : string;
  tsl_root : path;
  tsl_tokenizer : value;
  tsl_model : value
}.

Record VEDModel : Type := VED {
  ocr_name : string;
  ocr_dev : string;
  ocr_root : path;
  ocr_tokenizer : value;
  ocr_model : value;
  ocr_image_processor : value
}.

(** [Loaders.accept_device] and [Loaders.mapping]. *)
Definition accept_device : list string := ["ved_model"; "seq2seq"; "model"].

Definition mapping : gmap string loader :=
  list_to_map [
    ("tokenizer", AutoTokenizer);
    ("ved_model", VisionEncoderDecoderModel);
    ("model", AutoModel);
    ("image_processor", AutoImageProcessor);
    ("seq2seq", AutoModelForSeq2SeqLM)
  ].

(** [d[key]]. *)
Definition dict_item (d : gmap string value) (key : string) : res value :=
  match d !! key with
  | Some v => Ok v
  | None => Raise (KeyError key)
  end.

(** ** The plugin over a library *)

Section Plugin.

(** The library: its state, how it answers a call, and whether an object is
    an instance of [M2M100Tokenizer]. *)
Context {backend : Type}.
Variable perform : call → backend → res value * backend.
Variable is_M2M100Tokenizer : value → bool.

Local Abbreviation M := (M backend).

(** [raise e]. *)
Definition throw {A} (e : exn) : M A := fun w => (Raise e, w).

(** The outcome of a pure expression, as a computation. *)
Definition lift {A} (r : res A) : M A := fun w => (r, w).

(** A library call, appended to the log with its answer. *)
Definition do_call (c : call) : M value := fun w =>
  let '(r, b) := perform c (backend_of w) in
  (r, World b (calls w ++ [(c, r)])).

(** [try: body  except Exception: handler]. *)
Definition try_except {A} (body : M A) (handler : M A) : M A := fun w =>
  match body w with
  | (Ok a, w') => (Ok a, w')
  | (Raise _, w') => handler w'
  end.

(** [for x in xs: acc = body x acc]. *)
Fixpoint for_each {A S} (xs : list A) (body : A → S → M S) (acc : S) : M S :=
  match xs with
  | [] => mret acc
  | x :: xs' => acc' ← body x acc; for_each xs' body acc'
  end.

(** The computation that ends a method, after the assignments to [self]. *)
Definition finish {Self A} (self : Self) (m : M A)
    : world backend → res A * Self * world backend :=
  fun w => let '(r, w') := m w in (r, self, w').

(** *** Loaders *)

Definition _load (l : loader) (model_id : string) (root : path) : M value :=
  try_except
    (let mid := Truediv root model_id in
     do_call (FromPretrained l (ByPath mid) None))
    (do_call (FromPretrained l (ById model_id) (Some root))).

(** The body of the loop of [Loaders.load]. *)
Definition load_entry (model_id : string) (root : path) (dev : string)
    (r : string) (res : gmap string value) : M (gmap string value) :=
  match mapping !! r with
  | None => throw (ValueError ("Unknown request: " +:+ r))
  | Some l =>
      cls ← _load l model_id root;
      if is_None cls then
        throw (ValueError ("Could not load model: " +:+ model_id))
      else
        cls ← (if bool_decide (r ∈ accept_device)
               then do_call (To cls dev) else mret cls);
        mret (<[r := cls]> res)
  end.

Definition load (model_id : string) (request : list string) (root : path)
    (dev : string) : M (gmap string value) :=
  for_each request (load_entry model_id root dev) ∅.

(** [torch.cuda.empty_cache()] when the device is cuda. *)
Definition empty_cache_if_cuda (dev : string) : M unit :=
  if String.eqb dev "cuda" then _ ← do_call EmptyCache; mret tt else mret tt.

(** *** HugginfaceSeq2SeqModel *)

(** [__init__]: no artifact is loaded. *)
Definition Seq2SeqModel_init (name dev : string) (root : path) : Seq2SeqModel :=
  Seq2Seq name dev root VNone VNone.

Definition Seq2SeqModel_load : Method backend Seq2SeqModel unit := fun self w =>
  match load (tsl_name self) ["seq2seq"; "tokenizer"]
          (tsl_root self) (tsl_dev self) w with
  | (Raise e, w') => (Raise e, self, w')
  | (Ok res, w') =>
      match dict_item res "seq2seq" with
      | Raise e => (Raise e, self, w')
      | Ok model =>
          let self := Seq2Seq (tsl_name self) (tsl_dev self) (tsl_root self)
                        (tsl_tokenizer self) model in
          match dict_item res "tokenizer" with
          | Raise e => (Raise e, self, w')
          | Ok tokenizer =>
              (Ok tt,
               Seq2Seq (tsl_name self) (tsl_dev self) (tsl_root self)
                 tokenizer (tsl_model self),
               w')
          end
      end
  end.

Definition Seq2SeqModel_unload : Method backend Seq2SeqModel unit := fun self =>
  let self :=
    if negb (is_None (tsl_model self)) then
      Seq2Seq (tsl_name self) (tsl_dev self) (tsl_root self)
        (tsl_tokenizer self) VNone
    else self in
  let self :=
    if negb (is_None (tsl_tokenizer self)) then
      Seq2Seq (tsl_name self) (tsl_dev self) (tsl_root self)
        VNone (tsl_model self)
    else self in
  finish self (empty_cache_if_cuda (tsl_dev self)).

Definition _translate (self : Seq2SeqModel) (tokens : value)
    (src_lang dst_lang : string) (options : option (gmap string num)) : M value :=
  if is_None (tsl_model self) || is_None (tsl_tokenizer self) then
    throw (RuntimeError "Model not loaded")
  else
    let options := default ∅ options in
    match tokens with
    | VList toks =>
        if (length toks =? 0)%nat then mret (VStr "")
        else
          _ ← do_call (SetSrcLang (tsl_tokenizer self) src_lang);
          encoded ← do_call (Tokenize (tsl_tokenizer self) tokens);
          ntok ← do_call (InputIdsWidth encoded);
          _ ← do_call (To encoded (tsl_dev self));
          mnt ← match ntok with
                | VInt n => lift (get_mnt n options)
                | _ => throw (TypeError "unsupported operand type(s) for *")
                end;
          let kwargs := [("max_new_tokens", VInt mnt)] in
          kwargs ← (if is_M2M100Tokenizer (tsl_tokenizer self) then
                      id ← do_call (GetLangId (tsl_tokenizer self) dst_lang);
                      mret (kwargs ++ [("forced_bos_token_id", id)])
                    else mret kwargs);
          generated_tokens ← do_call (Generate (tsl_model self) encoded kwargs);
          tsl ← do_call (BatchDecode (tsl_tokenizer self) generated_tokens);
          tsl ← (if isinstance_str (default VNone (head toks))
                 then lift (subscript0 tsl) else mret tsl);
          _ ← empty_cache_if_cuda (tsl_dev self);
          mret tsl
    | _ =>
        throw (TypeError
          "tokens must be a list of strings or a list of list of strings")
    end.

(** *** HugginfaceVEDModel *)

Definition VEDModel_init (name dev : string) (root : path) : VEDModel :=
  VED name dev root VNone VNone VNone.

Definition VEDModel_load : Method backend VEDModel unit := fun self w =>
  match load (ocr_name self) ["ved_model"; "tokenizer"; "image_processor"]
          (ocr_root self) (ocr_dev self) w with
  | (Raise e, w') => (Raise e, self, w')
  | (Ok res, w') =>
      match dict_item res "ved_model" with
      | Raise e => (Raise e, self, w')
      | Ok model =>
          let self := VED (ocr_name self) (ocr_dev self) (ocr_root self)
                        (ocr_tokenizer self) model (ocr_image_processor self) in
          match dict_item res "tokenizer" with
          | Raise e => (Raise e, self, w')
          | Ok tokenizer =>
              let self := VED (ocr_name self) (ocr_dev self) (ocr_root self)
                            tokenizer (ocr_model self) (ocr_image_processor self) in
              match dict_item res "image_processor" with
              | Raise e => (Raise e, self, w')
              | Ok image_processor =>
                  (Ok tt,
                   VED (ocr_name self) (ocr_dev self) (ocr_root self)
                     (ocr_tokenizer self) (ocr_model self) image_processor,
                   w')
              end
          end
      end
  end.

Definition VEDModel_unload : Method backend VEDModel unit := fun self =>
  let self :=
    if negb (is_None (ocr_model self)) then
      VED (ocr_name self) (ocr_dev self) (ocr_root self)
        (ocr_tokenizer self) VNone (ocr_image_processor self)
    else self in
  let self :=
    if negb (is_None (ocr_tokenizer self)) then
      VED (ocr_name self) (ocr_dev self) (ocr_root self)
        VNone (ocr_model self) (ocr_image_processor self)
    else self in
  let self :=
    if negb (is_None (ocr_image_processor self)) then
      VED (ocr_name self) (ocr_dev self) (ocr_root self)
        (ocr_tokenizer self) (ocr_model self) VNone
    else self in
  finish self (empty_cache_if_cuda (ocr_dev self)).

Definition _ocr (self : VEDModel) (img : value) (lang : option string)
    (options : option (gmap string num)) : M value :=
  if is_None (ocr_model self) || is_None (ocr_tokenizer self)
     || is_None (ocr_image_processor self) then
    throw (RuntimeError "Model not loaded")
  else
    let options := default ∅ options in
    pixel_values ← do_call (ImageProcess (ocr_image_processor self) img);
    pixel_values ← (if String.eqb (ocr_dev self) "cuda"
                    then do_call (Cuda pixel_values) else mret pixel_values);
    generated_ids ← do_call (Generate (ocr_model self) pixel_values []);
    decoded ← do_call (BatchDecode (ocr_tokenizer self) generated_ids);
    generated_text ← lift (subscript0 decoded);
    _ ← empty_cache_if_cuda (ocr_dev self);
    mret generated_text.

End Plugin.

(** ** The test doubles of tests/conftest.py, as a library *)

Module Mock.

#[export] Instance path_eq_dec : EqDecision path.
Proof. solve_decision. Defined.

(** The state of the doubles: the directories that exist on disk, and the
    vocabulary of the translation tokenizer ([tok_to_word], the word of
    token [i + 1] at index [i]; token [0] is the padding). *)
Record state : Type := State {
  dirs : list path;
  vocab : list string
}.

(** [s.replace("/", "--")]. *)
Fixpoint replace_slash (s : string) : string :=
  match s with
  | EmptyString => EmptyString
  | String c s' =>
      if Ascii.eqb c "/"%char then "--" +:+ replace_slash s'
      else String c (replace_slash s')
  end.

(** [s.split(' ')]. *)
Fixpoint split_space (s : string) : list string :=
  match s with
  | EmptyString => [EmptyString]
  | String c s' =>
      if Ascii.eqb c " "%char then EmptyString :: split_space s'
      else match split_space s' with
           | w :: ws => String c w :: ws
           | [] => [String c EmptyString]
           end
  end.

(** [Loader.from_pretrained]: the object [A()] when the directory exists. *)
Definition from_pretrained (name : pretrained_name) (cache_dir : option path)
    (st : state) : res value :=
  match name with
  | ByPath model_id =>
      if bool_decide (model_id ∈ dirs st) then Ok (VObj "A")
      else Raise (FileNotFoundError "Not in dir")
  | ById model_id =>
      let cache_dir := default (Path ".") cache_dir in
      if bool_decide
           (Truediv cache_dir ("models--" +:+ replace_slash model_id) ∈ dirs st)
      then Ok (VObj "A")
      else Raise (FileNotFoundError "Not in cache")
  end.

(** The strings of a line of text; a segment that is not a string has no
    [split]. *)
Fixpoint words_of (line : list value) : res (list string) :=
  match line with
  | [] => Ok []
  | VStr seg :: line' => ws ← words_of line'; mret (split_space seg ++ ws)
  | _ :: _ => Raise (AttributeError "object has no attribute 'split'")
  end.

Fixpoint lines_of (text : list value) : res (list (list string)) :=
  match text with
  | [] => Ok []
  | VList line :: text' =>
      ws ← words_of line; rest ← lines_of text'; mret (ws :: rest)
  | _ :: _ => Raise (TypeError "object is not iterable")
  end.

(** The index of a word in the vocabulary, if it is there. *)
Fixpoint index_of (word : string) (voc : list string) : option nat :=
  match voc with
  | [] => None
  | w :: voc' =>
      if String.eqb w word then Some 0%nat else S <$> index_of word voc'
  end.

(** The token of a word, added to the vocabulary when it is new. *)
Definition token_of (word : string) (voc : list string) : Z * list string :=
  match index_of word voc with
  | Some i => (Z.of_nat (S i), voc)
  | None => (Z.of_nat (S (length voc)), voc ++ [word])
  end.

Fixpoint tokens_of (ws : list string) (voc : list string) : list Z * list string :=
  match ws with
  | [] => ([], voc)
  | w :: ws' =>
      let '(t, voc) := token_of w voc in
      let '(ts, voc) := tokens_of ws' voc in
      (t :: ts, voc)
  end.

Fixpoint rows_of (lines : list (list string)) (voc : list string)
    : list (list Z) * list string :=
  match lines with
  | [] => ([], voc)
  | l :: lines' =>
      let '(r, voc) := tokens_of l voc in
      let '(rs, voc) := rows_of lines' voc in
      (r :: rs, voc)
  end.

(** [(row + [0] * max_len)[:max_len]]. *)
Definition pad (max_len : nat) (row : list Z) : list Z :=
  take max_len (row ++ replicate max_len 0).

Definition tensor (rows : list (list Z)) : value :=
  VList (map (fun row => VList (map VInt row)) rows).

(** [_MockTokenizer.__call__] of the translation tokenizer, with the
    keyword arguments that [_translate] passes: the ids of the words of
    each line, padded to the longest line. *)
Definition tokenize (text : value) (st : state) : res value * state :=
  match text with
  | VList [] => (Raise (IndexError "list index out of range"), st)
  | VList items =>
      let text := if isinstance_str (default VNone (head items))
                  then [VList items] else items in
      match lines_of text with
      | Ok lines =>
          let '(rows, voc) := rows_of lines (vocab st) in
          let max_len := foldr Nat.max 0%nat (map length rows) in
          (Ok (tensor (map (pad max_len) rows)), State (dirs st) voc)
      | Raise e => (Raise e, st)
      end
  | _ => (Raise (TypeError "Expected list of strings"), st)
  end.

(** [tok_to_word[int(t)]], without the entries that [filter(None, ...)]
    drops: the padding and the empty word. *)
Definition word_of (voc : list string) (t : value) : res (list string) :=
  match t with
  | VInt 0 => Ok []
  | VInt (Z.pos p) =>
      match voc !! Nat.pred (Pos.to_nat p) with
      | Some EmptyString => Ok []
      | Some w => Ok [w]
      | None => Raise (KeyError "token")
      end
  | _ => Raise (KeyError "token")
  end.

Fixpoint decode_row (voc : list string) (row : list value) : res (list string) :=
  match row with
  | [] => Ok []
  | t :: row' => w ← word_of voc t; ws ← decode_row voc row'; mret (w ++ ws)
  end.

Fixpoint decode_rows (voc : list string) (rows : list value) : res (list value) :=
  match rows with
  | [] => Ok []
  | VList row :: rows' =>
      ws ← decode_row voc row; rest ← decode_rows voc rows';
      mret (VStr (String.concat " " ws) :: rest)
  | _ :: _ => Raise (TypeError "object is not iterable")
  end.

(** [chr(int(t) + ord('a') - 1)] for each token, joined. *)
Fixpoint letters_of (tokens : list value) : res string :=
  match tokens with
  | [] => Ok EmptyString
  | VInt t :: tokens' =>
      s ← letters_of tokens';
      mret (String (Ascii.ascii_of_N (Z.to_N (t + 96))) s)
  | _ :: _ => Raise (TypeError "int() argument must be a number")
  end.

(** The objects of the doubles: ["A"] is what the loader returns,
    the others are the fixtures [mock_tsl_tokenizer], [mock_tsl_model],
    [mock_ocr_preprocessor], [mock_ocr_tokenizer] and [mock_ocr_model]. *)
Definition perform (c : call) (st : state) : res value * state :=
  match c with
  | FromPretrained _ name cache_dir => (from_pretrained name cache_dir st, st)
  | To (VObj "A") _ => (Ok VNone, st)
  | To (VList _) _ => (Ok VNone, st)
  | SetSrcLang (VObj _) _ => (Ok VNone, st)
  | Tokenize (VObj "tsl_tokenizer") text => tokenize text st
  | InputIdsWidth (VList (VList row :: _)) => (Ok (VInt (Z.of_nat (length row))), st)
  | GetLangId (VObj "tsl_tokenizer") _ => (Ok (VInt 0), st)
  | Generate (VObj "tsl_model") inputs _ => (Ok inputs, st)
  | Generate (VObj "ocr_model") pixel_values _ => (Ok pixel_values, st)
  | BatchDecode (VObj "tsl_tokenizer") (VList rows) =>
      (v ← decode_rows (vocab st) rows; mret (VList v), st)
  | BatchDecode (VObj "ocr_tokenizer") (VList tokens) =>
      (s ← letters_of tokens; mret (VList [VStr s]), st)
  | ImageProcess (VObj "ocr_preprocessor") _ =>
      (Ok (VList [VInt 1; VInt 2; VInt 3; VInt 4; VInt 5]), st)
  | Cuda pixel_values => (Ok pixel_values, st)
  | EmptyCache => (Ok VNone, st)
  | _ => (Raise (AttributeError "object has no such attribute"), st)
  end.

(** None of the doubles is an [M2M100Tokenizer]. *)
Definition is_M2M100Tokenizer (_ : value) : bool := false.

(** Nothing on disk, an empty vocabulary, and no call made yet. *)
Definition start : world state := World (State [] []) [].

(** The adapters with the fixtures in place of the loaded artifacts. *)
Definition s2s_model : Seq2SeqModel :=
  Seq2Seq "test_seq2seq" "cpu" (Path ".")
    (VObj "tsl_tokenizer") (VObj "tsl_model").

Definition ved_model : VEDModel :=
  VED "test_ved" "cpu" (Path ".")
    (VObj "ocr_tokenizer") (VObj "ocr_model") (VObj "ocr_preprocessor").

End Mock.

(** ** A device without free memory

    A library in which every artifact is found on disk and every transfer
    to the device fails, as torch does when the device is out of memory. *)
Module FullDevice.

Definition perform (c : call) (st : unit) : res value * unit :=
  match c with
  | FromPretrained _ _ _ => (Ok (VObj "artifact"), st)
  | To _ _ => (Raise (RuntimeError "CUDA out of memory"), st)
  | _ => (Ok VNone, st)
  end.

Definition start : world unit := World tt [].

End FullDevice.

(** ** Definitions the statements use *)

(** The state of an adapter after [unload], whatever it was before. *)
Definition Seq2SeqModel_released (self : Seq2SeqModel) : Seq2SeqModel :=
  Seq2Seq (tsl_name self) (tsl_dev self) (tsl_root self) VNone VNone.

Definition VEDModel_released (self : VEDModel) : VEDModel :=
  VED (ocr_name self) (ocr_dev self) (ocr_root self) VNone VNone VNone.

(** The transfers that [Loaders.load] is to make for a request list, given
    the object loaded for each entry: one per entry whose kind is in
    [accept_device], of the object loaded for that entry, to [dev]. *)
Definition transfers (dev : string) (request : list string) (objs : list value)
    : list (value * string) :=
  (λ p, (p.2, dev)) <$> filter (λ p, p.1 ∈ accept_device) (zip request objs).

(** The dict that maps each requested kind to the object loaded for it, as
    loaded (a kind requested twice keeps the later object). *)
Definition as_loaded (acc : gmap string value) (request : list string)
    (objs : list value) : gmap string value :=
  foldl (λ m p, <[p.1 := p.2]> m) acc (zip request objs).

(** Two dicts that agree on the kinds that are not moved to a device. *)
Definition agree_off_device (m1 m2 : gmap string value) : Prop :=
  ∀ r, r ∉ accept_device → m1 !! r = m2 !! r.

Definition is_EmptyCache (ev : event) : bool :=
  match ev.1 with EmptyCache => true | _ => false end.

(** *** Inputs of the examples *)

(** The world in which the model directory of ["test/id"] is on disk. *)
Definition on_disk : world Mock.state :=
  World (Mock.State [Truediv (Path ".") "test/id"] []) [].

(** What [VEDModel.load] requests, loaded from disk with the doubles. *)
Definition ved_request : list string :=
  ["ved_model"; "tokenizer"; "image_processor"].

Definition ved_loaded : res (gmap string value) * world Mock.state :=
  load Mock.perform "test/id" ved_request (Path ".") "cpu" on_disk.

(** A list of strings and a list of lists of strings, as the test suite
    translates them. *)
Definition one_line : list value := [VStr "This is a test"; VStr "string."].
Definition two_lines : list value :=
  [VList [VStr "This is a test"; VStr "string."]; VList [VStr "hello"]].

(** *** Kinds of events *)

(** The events of loading: a [from_pretrained] or a [.to] call. *)
Definition is_load_event (ev : event) : bool :=
  match ev.1 with
  | FromPretrained _ _ _ | To _ _ => true
  | _ => false
  end.

(** The events of inference: a [generate] or a [batch_decode] call. *)
Definition is_inference_event (ev : event) : bool :=
  match ev.1 with
  | Generate _ _ _ | BatchDecode _ _ => true
  | _ => false
  end.

(** The number of new tokens with the default options, on integers. *)
Definition default_mnt (ntok : Z) : Z := Z.min 512 (Z.max 20 (3 * ntok)).

(** ** A loader that finds nothing

    A library whose [from_pretrained] returns [None] instead of raising. *)
Module NoneLoader.

Definition perform (c : call) (st : unit) : res value * unit := (Ok VNone, st).

Definition start : world unit := World tt [].

End NoneLoader.

(** *** The round trip of the translation double *)




(** Options whose lower cap exceeds the default upper cap. *)
Definition inverted_caps : gmap string num :=
  {["min_max_new_tokens" := NInt 600]}.

(** An adapter for OCR on the cuda device, with the doubles. *)
Definition ved_model_cuda : VEDModel :=
  VED "test_ved" "cuda" (Path ".")
    (VObj "ocr_tokenizer") (VObj "ocr_model") (VObj "ocr_preprocessor").

Example get_mnt_10 : get_mnt 10 ∅ = Ok 30.
Proof. vm_compute. reflexivity. Qed.
Example get_mnt_1 : get_mnt 1 ∅ = Ok 20.
Proof. vm_compute. reflexivity. Qed.
Example get_mnt_1000 : get_mnt 1000 ∅ = Ok 512.
Proof. vm_compute. reflexivity. Qed.

(** ** Properties of [get_mnt] *)

Lemma Qcompare_inject_Z (x y : Z) :
  Qcompare (inject_Z x) (inject_Z y) = Z.compare x y.
Proof. unfold Qcompare; simpl. by rewrite !Z.mul_1_r. Qed.

Lemma Qtrunc_inject_Z (z : Z) : Qtrunc (inject_Z z) = z.
Proof. unfold Qtrunc; simpl. apply Z.quot_1_r. Qed.

Lemma Qmax_cases (a b : Q) :
  Qmax a b = if bool_decide (Qcompare a b = Lt) then b else a.
Proof.
  unfold Qmax, GenericMinMax.gmax.
  destruct (Qcompare a b) eqn:E; by case_bool_decide.
Qed.

Lemma Qmin_cases (a b : Q) :
  Qmin a b = if bool_decide (Qcompare b a = Lt) then b else a.
Proof.
  unfold Qmin, GenericMinMax.gmin. rewrite <- (Qcompare_antisym b a).
  destruct (Qcompare b a) eqn:E; by case_bool_decide.
Qed.

(** A float that has an exact value: a zero or a finite float. *)
Definition has_value (f : spec_float) : bool :=
  match f with
  | S754_zero _ | S754_finite _ _ _ => true
  | _ => false
  end.

Lemma py_int_has_value f : has_value f = true → py_int (NFloat f) = Ok (Qtrunc (SF2Q f)).
Proof. by destruct f. Qed.

Lemma int_lt_float_value z f :
  has_value f = true →
  int_lt_float z f = bool_decide (Qcompare (inject_Z z) (SF2Q f) = Lt).
Proof. by destruct f. Qed.

Lemma float_lt_int_value f z :
  has_value f = true →
  float_lt_int f z = bool_decide (Qcompare (SF2Q f) (inject_Z z) = Lt).
Proof. by destruct f. Qed.

(** On a float with a value, Python's [min], [max] and [int] compute the
    clamp of the specification, whatever the two caps are. *)
Lemma py_clamp_value (mn mx : Z) (f : spec_float) :
  has_value f = true →
  py_int (py_min (NInt mx) (py_max (NInt mn) (NFloat f)))
  = Ok (clamp_trunc mn mx (SF2Q f)).
Proof.
  intros Hf. unfold clamp_trunc, py_max, py_gt.
  rewrite Qmax_cases, Qmin_cases.
  change (py_lt (NInt mn) (NFloat f)) with (int_lt_float mn f).
  rewrite int_lt_float_value by done.
  case_bool_decide as Hlo; unfold py_min; simpl py_lt.
  - rewrite float_lt_int_value by done.
    case_bool_decide; [by apply py_int_has_value|].
    simpl. by rewrite Qtrunc_inject_Z.
  - rewrite Qcompare_inject_Z.
    destruct (Z.ltb_spec mn mx) as [Hlt|Hge].
    + rewrite bool_decide_eq_true_2 by exact Hlt. simpl. by rewrite Qtrunc_inject_Z.
    + rewrite bool_decide_eq_false_2 by (intros Hlt; change (mn < mx) in Hlt; lia).
      simpl. by rewrite Qtrunc_inject_Z.
Qed.

(** Where the float has no value, the lower cap must not exceed the upper
    one for the result to be the limit of the clamp. *)
Lemma py_clamp_no_value (mn mx : Z) (f : spec_float) :
  mn ≤ mx → has_value f = false →
  py_int (py_min (NInt mx) (py_max (NInt mn) (NFloat f))) = Ok (mnt_spec mn mx f).
Proof.
  intros Hle Hf. destruct f as [| [] | |]; try discriminate Hf;
    unfold py_max, py_min, py_gt; simpl; try done.
  all: destruct (Z.ltb_spec mn mx); simpl; f_equal; lia.
Qed.

(** The bound is a bound: between the two caps, whatever the product. *)
Lemma clamp_trunc_within (mn mx : Z) (q : Q) :
  mn ≤ mx → mn ≤ clamp_trunc mn mx q ≤ mx.
Proof.
  intros Hle. unfold clamp_trunc. rewrite Qmax_cases, Qmin_cases.
  destruct (bool_decide (Qcompare (inject_Z mn) q = Lt)) eqn:Hlo.
  - apply bool_decide_eq_true_1 in Hlo.
    case_bool_decide as Hhi; [|rewrite Qtrunc_inject_Z; lia].
    destruct q as [n d]. unfold Qcompare in Hlo, Hhi. simpl in Hlo, Hhi.
    rewrite Z.mul_1_r in Hlo, Hhi.
    assert (Hlo' := Hlo : _ < _). assert (Hhi' := Hhi : _ < _).
    unfold Qtrunc. simpl. split.
    + rewrite <- (Z.quot_mul mn (Z.pos d)) by done.
      apply Z.quot_le_mono; lia.
    + rewrite <- (Z.quot_mul mx (Z.pos d)) by done.
      apply Z.quot_le_mono; lia.
  - clear Hlo. rewrite Qcompare_inject_Z.
    destruct (bool_decide (Z.compare mn mx = Lt));
      rewrite Qtrunc_inject_Z; lia.
Qed.

Lemma mnt_spec_within (mn mx : Z) (x : spec_float) :
  mn ≤ mx → mn ≤ mnt_spec mn mx x ≤ mx.
Proof.
  intros Hle. destruct x as [| [] | |]; simpl; try lia;
    by apply clamp_trunc_within.
Qed.

(** C1. For every token count [ntok] and every options dict whose
    [min_max_new_tokens] (default 20) does not exceed its
    [max_max_new_tokens] (default 512), with ratio [max_new_tokens_ratio]
    (default 3.0), [get_mnt] raises nothing and returns the integer
    truncation of [min(max_max_new_tokens, max(min_max_new_tokens,
    max_new_tokens_ratio * ntok))]: the clamp of the exact value of the
    float product where that product is finite, the upper cap at
    [+inf], and the lower cap at [-inf] and at NaN, which is what Python's
    [min] and [max] leave there.  The options are numbers that [int] and
    [float] accept, and [ntok] is in the range of a float, as the product
    of a float and an int requires. *)
Theorem get_mnt_clamp (ntok : Z) (options : gmap string num)
    (mn mx : Z) (ratio fntok : spec_float) :
  py_int (dict_get options "min_max_new_tokens" (NInt 20)) = Ok mn →
  py_int (dict_get options "max_max_new_tokens" (NInt 512)) = Ok mx →
  py_float (dict_get options "max_new_tokens_ratio" (NFloat float_3)) = Ok ratio →
  int_to_float ntok = Ok fntok →
  mn ≤ mx →
  get_mnt ntok options = Ok (mnt_spec mn mx (SFmul prec emax ratio fntok)).
Proof.
  intros Hmn Hmx Hr Hn Hle. unfold get_mnt.
  rewrite Hmn, Hmx, Hr. simpl.
  destruct (Z.ltb_spec mx mn) as [?|_]; [lia|].
  unfold float_mul_int. rewrite Hn. simpl.
  destruct (has_value (SFmul prec emax ratio fntok)) eqn:Hv.
  - rewrite py_clamp_value by done.
    by destruct (SFmul prec emax ratio fntok).
  - by apply py_clamp_no_value.
Qed.

(** The theorem at the defaults with ten input tokens: thirty new tokens. *)
Lemma get_mnt_clamp_witness :
  get_mnt 10 ∅ = Ok (mnt_spec 20 512 (SFmul prec emax float_3
                       (S754_finite false 5629499534213120 (-49)))).
Proof.
  apply (get_mnt_clamp 10 ∅ 20 512 float_3
           (S754_finite false 5629499534213120 (-49)));
    [reflexivity | reflexivity | reflexivity | vm_compute; reflexivity | lia].
Defined.

(** ** Properties of the loader and of the adapters *)

Section PluginProps.

Context {backend : Type}.
Variable perform : call → backend → res value * backend.
Variable is_M2M100Tokenizer : value → bool.

Local Abbreviation M := (M backend).

(** How computations run. *)
Lemma run_bind {A B} (m : M A) (f : A → M B) (w : world backend) :
  (m ≫= f) w = match m w with
               | (Ok a, w') => f a w'
               | (Raise e, w') => (Raise e, w')
               end.
Proof. reflexivity. Qed.

Lemma run_ret {A} (a : A) (w : world backend) : (mret a : M A) w = (Ok a, w).
Proof. reflexivity. Qed.

Lemma run_do_call (c : call) (w : world backend) :
  do_call perform c w =
  ((perform c (backend_of w)).1,
   World (perform c (backend_of w)).2
     (calls w ++ [(c, (perform c (backend_of w)).1)])).
Proof. unfold do_call. by destruct (perform c (backend_of w)). Qed.

Lemma for_each_app {A S} (xs ys : list A) (body : A → S → M S) (acc : S)
    (w : world backend) :
  for_each (xs ++ ys) body acc w =
  match for_each xs body acc w with
  | (Ok acc', w') => for_each ys body acc' w'
  | (Raise e, w') => (Raise e, w')
  end.
Proof.
  revert acc w. induction xs as [|x xs IH]; intros acc w; [done|].
  simpl. rewrite !run_bind. destruct (body x acc w) as [[acc'|e] w']; [apply IH|done].
Qed.

(** The two ways [_load] runs: the local path answers, or it raises and
    the registry is asked. *)
Lemma _load_local (l : loader) (model_id : string) (root : path)
    (w : world backend) (artifact : value) (b1 : backend) :
  perform (FromPretrained l (ByPath (Truediv root model_id)) None) (backend_of w)
  = (Ok artifact, b1) →
  _load perform l model_id root w
  = (Ok artifact,
     World b1 (calls w ++ [(FromPretrained l (ByPath (Truediv root model_id)) None,
                            Ok artifact)])).
Proof.
  intros H. unfold _load, try_except, do_call. by rewrite H.
Qed.

Lemma _load_fallback (l : loader) (model_id : string) (root : path)
    (w : world backend) (e : exn) (b1 b2 : backend) (outcome : res value) :
  perform (FromPretrained l (ByPath (Truediv root model_id)) None) (backend_of w)
  = (Raise e, b1) →
  perform (FromPretrained l (ById model_id) (Some root)) b1 = (outcome, b2) →
  _load perform l model_id root w
  = (outcome,
     World b2 (calls w ++ [(FromPretrained l (ByPath (Truediv root model_id)) None,
                            Raise e);
                           (FromPretrained l (ById model_id) (Some root),
                            outcome)])).
Proof.
  intros H1 H2. unfold _load, try_except, do_call. rewrite H1. simpl.
  rewrite H2. by rewrite <- app_assoc.
Qed.

(** C2. For every loader, model id and cache root, [Loaders._load] first
    calls [from_pretrained] on the local path [root / model_id]; if that
    call returns, its result is returned unchanged and nothing else is
    called; if and only if it raises, [from_pretrained] is called a second
    time on [model_id] as a registry id with [cache_dir = root], and the
    outcome of that second call (its result, or its exception) is the
    outcome of [_load]. *)
Theorem _load_two_tier (l : loader) (model_id : string) (root : path)
    (w : world backend) :
  let local_call := FromPretrained l (ByPath (Truediv root model_id)) None in
  let remote_call := FromPretrained l (ById model_id) (Some root) in
  match perform local_call (backend_of w) with
  | (Ok artifact, b1) =>
      _load perform l model_id root w
      = (Ok artifact, World b1 (calls w ++ [(local_call, Ok artifact)]))
  | (Raise e, b1) =>
      let '(outcome, b2) := perform remote_call b1 in
      _load perform l model_id root w
      = (outcome,
         World b2 (calls w ++ [(local_call, Raise e); (remote_call, outcome)]))
  end.
Proof.
  simpl.
  destruct (perform _ (backend_of w)) as [[artifact|e] b1] eqn:H1.
  - by apply _load_local.
  - destruct (perform _ b1) as [outcome b2] eqn:H2. by eapply _load_fallback.
Qed.

(** The keys of [Loaders.mapping]. *)
Lemma mapping_keys (r : string) :
  is_Some (mapping !! r) ↔
  r ∈ ["tokenizer"; "ved_model"; "model"; "image_processor"; "seq2seq"].
Proof.
  unfold mapping. rewrite <- elem_of_dom, dom_list_to_map_L.
  rewrite elem_of_list_to_set. done.
Qed.

Lemma load_entry_unknown (model_id : string) (root : path) (dev r : string)
    (acc : gmap string value) (w : world backend) :
  mapping !! r = None →
  load_entry perform model_id root dev r acc w
  = (Raise (ValueError ("Unknown request: " +:+ r)), w).
Proof. intros Hr. unfold load_entry. by rewrite Hr. Qed.

(** C3, as amended. For every request list with an entry [r] that is not a
    key of [Loaders.mapping]: when the entries before [r] are loaded (and
    moved) without an exception, [Loaders.load] raises the [ValueError]
    for [r], and the library has then been called for the entries before
    [r] only, so the error comes before any attempt to load [r]; when an
    entry before [r] raises, that exception is the one [load] raises. *)
Theorem load_unknown_request (model_id : string) (pre : list string)
    (r : string) (post : list string) (root : path) (dev : string)
    (w : world backend) :
  mapping !! r = None →
  load perform model_id (pre ++ r :: post) root dev w =
  match load perform model_id pre root dev w with
  | (Ok _, w') => (Raise (ValueError ("Unknown request: " +:+ r)), w')
  | (Raise e, w') => (Raise e, w')
  end.
Proof.
  intros Hr. unfold load. rewrite for_each_app.
  destruct (for_each pre _ ∅ w) as [[acc|e] w']; [|done].
  simpl. rewrite run_bind. by rewrite load_entry_unknown.
Qed.

(** When both attempts of [_load] raise, [Loaders.load] raises the
    exception of the second attempt, whatever its class. *)
Lemma load_entry_not_found (model_id : string) (root : path) (dev r : string)
    (l : loader) (acc : gmap string value) (w : world backend)
    (e1 e2 : exn) (b1 b2 : backend) :
  mapping !! r = Some l →
  perform (FromPretrained l (ByPath (Truediv root model_id)) None) (backend_of w)
  = (Raise e1, b1) →
  perform (FromPretrained l (ById model_id) (Some root)) b1 = (Raise e2, b2) →
  (load_entry perform model_id root dev r acc w).1 = Raise e2.
Proof.
  intros Hr H1 H2. unfold load_entry. rewrite Hr, run_bind.
  by rewrite (_load_fallback _ _ _ _ _ _ _ _ H1 H2).
Qed.

(** C5. Whenever the model or the tokenizer of a [HugginfaceSeq2SeqModel]
    is [None], [_translate] raises [RuntimeError] and calls nothing; and
    whenever the model, the tokenizer or the image processor of a
    [HugginfaceVEDModel] is [None], so does [_ocr]: the world, with its log
    of calls, is the one before the call. *)
Theorem use_before_load_raises :
  (∀ (self : Seq2SeqModel) tokens src_lang dst_lang options (w : world backend),
     tsl_model self = VNone ∨ tsl_tokenizer self = VNone →
     _translate perform is_M2M100Tokenizer self tokens src_lang dst_lang options w
     = (Raise (RuntimeError "Model not loaded"), w))
  ∧
  (∀ (self : VEDModel) img lang options (w : world backend),
     ocr_model self = VNone ∨ ocr_tokenizer self = VNone
       ∨ ocr_image_processor self = VNone →
     _ocr perform self img lang options w
     = (Raise (RuntimeError "Model not loaded"), w)).
Proof.
  split.
  - intros self tokens src dst options w H. unfold _translate.
    destruct H as [-> | ->]; simpl; [done|].
    by rewrite orb_true_r.
  - intros self img lang options w H. unfold _ocr.
    destruct H as [-> | [-> | ->]]; simpl; [done| |].
    + by rewrite orb_true_r.
    + by rewrite orb_true_r.
Qed.

(** On a loaded model, [_translate] raises [TypeError] whenever [tokens] is
    not a list, and calls nothing. *)
Lemma translate_not_a_list (self : Seq2SeqModel) tokens src_lang dst_lang
    options (w : world backend) :
  tsl_model self ≠ VNone → tsl_tokenizer self ≠ VNone →
  isinstance_list tokens = false →
  _translate perform is_M2M100Tokenizer self tokens src_lang dst_lang options w
  = (Raise (TypeError
       "tokens must be a list of strings or a list of list of strings"), w).
Proof.
  intros Hm Ht Hl. unfold _translate.
  destruct (tsl_model self); [done|..]; (destruct (tsl_tokenizer self); [done|..]);
    simpl; by destruct tokens.
Qed.

(** C8. For every state of a [HugginfaceSeq2SeqModel] or of a
    [HugginfaceVEDModel], and whether or not emptying the cuda cache
    raises, [unload] leaves the adapter with [model], [tokenizer] (and
    [image_processor]) set to [None] and with [name], [dev] and [root] as
    they were; a second [unload] leaves that state as it is. *)
Theorem unload_releases :
  (∀ (self : Seq2SeqModel) (w w2 : world backend),
     (Seq2SeqModel_unload perform self w).1.2 = Seq2SeqModel_released self
     ∧ (Seq2SeqModel_unload perform (Seq2SeqModel_released self) w2).1.2
       = Seq2SeqModel_released self)
  ∧
  (∀ (self : VEDModel) (w w2 : world backend),
     (VEDModel_unload perform self w).1.2 = VEDModel_released self
     ∧ (VEDModel_unload perform (VEDModel_released self) w2).1.2
       = VEDModel_released self).
Proof.
  assert (Hfin : ∀ (Self A : Type) (s : Self) (m : M A) w,
            (finish s m w).1.2 = s).
  { intros Self A s m w. unfold finish. by destruct (m w). }
  split.
  - intros [name dev root tokenizer model] w w2.
    unfold Seq2SeqModel_unload, Seq2SeqModel_released. rewrite !Hfin. simpl.
    split; [|done]. by destruct model, tokenizer.
  - intros [name dev root tokenizer model image_processor] w w2.
    unfold VEDModel_unload, VEDModel_released. rewrite !Hfin. simpl.
    split; [|done]. by destruct model, tokenizer, image_processor.
Qed.

(** C9. On a loaded model, [_translate] of the empty list returns the empty
    string, not a list, and calls neither the tokenizer nor the model: the
    world, with its log of calls, is the one before the call. *)
Theorem translate_empty_list (self : Seq2SeqModel) src_lang dst_lang options
    (w : world backend) :
  tsl_model self ≠ VNone → tsl_tokenizer self ≠ VNone →
  _translate perform is_M2M100Tokenizer self (VList []) src_lang dst_lang options w
  = (Ok (VStr ""), w).
Proof.
  intros Hm Ht. unfold _translate.
  destruct (tsl_model self); [done|..]; by (destruct (tsl_tokenizer self)).
Qed.

(** *** The log of a computation *)

Lemma bind_Ok {A B} (m : M A) (f : A → M B) (w w' : world backend) (b : B) :
  (m ≫= f) w = (Ok b, w') →
  ∃ a w1, m w = (Ok a, w1) ∧ f a w1 = (Ok b, w').
Proof.
  rewrite run_bind. destruct (m w) as [[a|e] w1]; [eauto|done].
Qed.

Lemma do_call_Ok (c : call) (w w' : world backend) (v : value) :
  do_call perform c w = (Ok v, w') → calls w' = calls w ++ [(c, Ok v)].
Proof.
  rewrite run_do_call. intros [= Hv <-]. simpl. by rewrite Hv.
Qed.

Lemma loaded_of_app (l1 l2 : list event) :
  loaded_of (l1 ++ l2) = loaded_of l1 ++ loaded_of l2.
Proof.
  induction l1 as [|[c r] l1 IH]; [done|].
  destruct c, r; simpl; by rewrite ?IH.
Qed.

Lemma moved_of_app (l1 l2 : list event) :
  moved_of (l1 ++ l2) = moved_of l1 ++ moved_of l2.
Proof.
  induction l1 as [|[c r] l1 IH]; [done|].
  destruct c; simpl; by rewrite ?IH.
Qed.

Lemma _load_Ok (l : loader) (model_id : string) (root : path)
    (w w' : world backend) (obj : value) :
  _load perform l model_id root w = (Ok obj, w') →
  ∃ ev, calls w' = calls w ++ ev ∧ loaded_of ev = [obj] ∧ moved_of ev = [].
Proof.
  destruct (perform (FromPretrained l (ByPath (Truediv root model_id)) None)
              (backend_of w)) as [[a|e] b1] eqn:H1.
  - rewrite (_load_local _ _ _ _ _ _ H1). intros [= -> <-]. by eexists [_].
  - destruct (perform (FromPretrained l (ById model_id) (Some root)) b1)
      as [outcome b2] eqn:H2.
    rewrite (_load_fallback _ _ _ _ _ _ _ _ H1 H2).
    intros [= -> <-]. by eexists [_; _].
Qed.

(** One turn of the loop of [Loaders.load] that does not raise: one object
    is loaded, it is moved exactly when its kind is in [accept_device], and
    the dict gets an entry for the kind, which is the loaded object itself
    when it was not moved. *)
Lemma load_entry_Ok (model_id : string) (root : path) (dev r : string)
    (acc res1 : gmap string value) (w w1 : world backend) :
  load_entry perform model_id root dev r acc w = (Ok res1, w1) →
  ∃ ev obj cls,
    calls w1 = calls w ++ ev ∧ loaded_of ev = [obj] ∧
    moved_of ev = (if bool_decide (r ∈ accept_device) then [(obj, dev)] else []) ∧
    res1 = <[r := cls]> acc ∧ (r ∉ accept_device → cls = obj).
Proof.
  unfold load_entry. destruct (mapping !! r) as [l|]; [|done].
  intros H. apply bind_Ok in H as (obj & w0 & Hload & H).
  apply _load_Ok in Hload as (ev & Hev & Hl & Hm).
  destruct (is_None obj); [done|].
  apply bind_Ok in H as (cls & w2 & Hto & H).
  rewrite run_ret in H. injection H as <- <-.
  case_bool_decide as Hr.
  - apply do_call_Ok in Hto. exists (ev ++ [(To obj dev, Ok cls)]), obj, cls.
    rewrite Hto, Hev, loaded_of_app, moved_of_app, Hl, Hm, <- app_assoc.
    by repeat split.
  - rewrite run_ret in Hto. injection Hto as <- <-.
    exists ev, obj, obj. by repeat split.
Qed.

Lemma agree_off_device_foldl (m1 m2 : gmap string value)
    (ps : list (string * value)) :
  agree_off_device m1 m2 →
  agree_off_device (foldl (λ m p, <[p.1 := p.2]> m) m1 ps)
                   (foldl (λ m p, <[p.1 := p.2]> m) m2 ps).
Proof.
  revert m1 m2. induction ps as [|[k v] ps IH]; intros m1 m2 H; [done|].
  simpl. apply IH. intros r Hr.
  destruct (decide (k = r)) as [->|Hne].
  - by rewrite !lookup_insert_eq.
  - rewrite !lookup_insert_ne by done. by apply H.
Qed.

Lemma load_loop_transfer (model_id : string) (root : path) (dev : string)
    (request : list string) :
  ∀ (acc res : gmap string value) (w w' : world backend),
    for_each request (load_entry perform model_id root dev) acc w = (Ok res, w') →
    ∃ new,
      calls w' = calls w ++ new ∧
      length (loaded_of new) = length request ∧
      moved_of new = transfers dev request (loaded_of new) ∧
      agree_off_device res (as_loaded acc request (loaded_of new)).
Proof.
  induction request as [|r request IH]; intros acc res w w' H.
  - simpl in H. rewrite run_ret in H. injection H as <- <-.
    exists []. by rewrite app_nil_r.
  - simpl in H. apply bind_Ok in H as (res1 & w1 & Hentry & H).
    apply load_entry_Ok in Hentry as (ev & obj & cls & Hev & Hl & Hm & -> & Hcls).
    apply IH in H as (new & Hnew & Hlen & Hmoved & Hres).
    exists (ev ++ new). rewrite loaded_of_app, moved_of_app, Hl, Hm. simpl.
    split; [by rewrite Hnew, Hev, app_assoc|].
    split; [by rewrite Hlen|].
    split.
    + unfold transfers in *. simpl. rewrite filter_cons. simpl.
      rewrite Hmoved. by case_bool_decide; case_decide.
    + intros r' Hr'. rewrite (Hres r' Hr'). unfold as_loaded. simpl.
      apply agree_off_device_foldl; [|done].
      intros k Hk. destruct (decide (r = k)) as [->|Hne].
      * by rewrite Hcls.
      * by rewrite !lookup_insert_ne.
Qed.

(** The kinds of [Loaders.mapping] that are not in [accept_device]. *)
Lemma mapping_off_device (r : string) :
  is_Some (mapping !! r) → r ∉ accept_device →
  r = "tokenizer" ∨ r = "image_processor".
Proof.
  rewrite mapping_keys. unfold accept_device.
  rewrite !elem_of_cons.
  intros [->|[->|[->|[->|[->|H]]]]] Hn;
    [by left | exfalso; apply Hn; by left
    | exfalso; apply Hn; by (right; right; left) | by right
    | exfalso; apply Hn; by (right; left) | by apply elem_of_nil in H].
Qed.

(** C7. For every request list that [Loaders.load] accepts (it returns a
    dict), one object is loaded per entry, and the [.to] calls made are
    exactly one per entry whose kind is in [accept_device], in the order of
    the list, each moving the object loaded for that entry to the target
    device.  The returned dict agrees, on every kind outside
    [accept_device] (the tokenizer and the image processor), with the dict
    of the objects as loaded: they are returned without a device
    transfer. *)
Theorem load_device_transfer (model_id : string) (request : list string)
    (root : path) (dev : string) (res : gmap string value)
    (w w' : world backend) :
  load perform model_id request root dev w = (Ok res, w') →
  ∃ new,
    calls w' = calls w ++ new ∧
    length (loaded_of new) = length request ∧
    moved_of new = transfers dev request (loaded_of new) ∧
    agree_off_device res (as_loaded ∅ request (loaded_of new)) ∧
    (∀ r, r ∈ ["tokenizer"; "image_processor"] → r ∉ accept_device).
Proof.
  intros H. apply load_loop_transfer in H as (new & ? & ? & ? & ?).
  exists new. repeat split; try done.
  intros r Hr. unfold accept_device.
  rewrite !elem_of_cons in Hr. rewrite !not_elem_of_cons.
  destruct Hr as [->|[->|Hr]]; [| |by apply elem_of_nil in Hr];
    repeat split; try discriminate; apply not_elem_of_nil.
Qed.

Lemma empty_cache_if_cuda_Ok (dev : string) (u : unit) (w w' : world backend) :
  empty_cache_if_cuda perform dev w = (Ok u, w') →
  ∃ post, calls w' = calls w ++ post ∧ forallb is_EmptyCache post = true.
Proof.
  unfold empty_cache_if_cuda. destruct (String.eqb dev "cuda").
  - intros H. apply bind_Ok in H as (v & w1 & Hc & H).
    rewrite run_ret in H. injection H as _ <-.
    apply do_call_Ok in Hc. by eexists [_].
  - rewrite run_ret. intros [= _ <-]. exists []. by rewrite app_nil_r.
Qed.

(** C10. For every non-empty token list on a loaded model, when
    [_translate] returns, what it returns is decided by [tokens[0]]: the
    last call before the cache is emptied is the [batch_decode] of the
    tokenizer, and the result is the first element of the decoded list
    when [tokens[0]] is a string, and the decoded list itself otherwise. *)
Theorem translate_result_shape (self : Seq2SeqModel) (t0 : value)
    (rest : list value) src_lang dst_lang options (w w' : world backend)
    (v : value) :
  tsl_model self ≠ VNone → tsl_tokenizer self ≠ VNone →
  _translate perform is_M2M100Tokenizer self (VList (t0 :: rest))
    src_lang dst_lang options w = (Ok v, w') →
  ∃ pre post generated tsl,
    calls w' = calls w ++ pre
                 ++ (BatchDecode (tsl_tokenizer self) generated, Ok tsl) :: post ∧
    forallb is_EmptyCache post = true ∧
    if isinstance_str t0 then subscript0 tsl = Ok v else v = tsl.
Proof.
  intros Hm Ht. unfold _translate.
  replace (is_None (tsl_model self) || is_None (tsl_tokenizer self)) with false
    by (destruct (tsl_model self); [done|..]; by (destruct (tsl_tokenizer self))).
  simpl. intros H.
  apply bind_Ok in H as (r1 & w1 & H1 & H). apply do_call_Ok in H1.
  apply bind_Ok in H as (encoded & w2 & H2 & H). apply do_call_Ok in H2.
  apply bind_Ok in H as (ntok & w3 & H3 & H). apply do_call_Ok in H3.
  apply bind_Ok in H as (r4 & w4 & H4 & H). apply do_call_Ok in H4.
  apply bind_Ok in H as (mnt & w5 & H5 & H).
  assert (w5 = w4) as ->.
  { destruct ntok; try done. unfold lift in H5. by injection H5. }
  apply bind_Ok in H as (kwargs & w6 & H6 & H).
  assert (∃ l6, calls w6 = calls w4 ++ l6) as [l6 Hl6].
  { destruct (is_M2M100Tokenizer _).
    - apply bind_Ok in H6 as (id & w6' & Hid & H6). apply do_call_Ok in Hid.
      rewrite run_ret in H6. injection H6 as _ <-. by eexists.
    - rewrite run_ret in H6. injection H6 as _ <-. exists []. by rewrite app_nil_r. }
  apply bind_Ok in H as (generated & w7 & H7 & H). apply do_call_Ok in H7.
  apply bind_Ok in H as (tsl & w8 & H8 & H). apply do_call_Ok in H8.
  apply bind_Ok in H as (out & w9 & H9 & H).
  apply bind_Ok in H as (u & w10 & H10 & H).
  rewrite run_ret in H. injection H as <- <-.
  apply empty_cache_if_cuda_Ok in H10 as (post & Hpost & Hall).
  assert (w9 = w8 ∧ if isinstance_str t0 then subscript0 tsl = Ok out else out = tsl)
    as [-> Hshape].
  { destruct (isinstance_str t0).
    - unfold lift in H9. by injection H9.
    - rewrite run_ret in H9. by injection H9. }
  exists ([(SetSrcLang (tsl_tokenizer self) src_lang, Ok r1);
           (Tokenize (tsl_tokenizer self) (VList (t0 :: rest)), Ok encoded);
           (InputIdsWidth encoded, Ok ntok);
           (To encoded (tsl_dev self), Ok r4)]
          ++ l6 ++ [(Generate (tsl_model self) encoded kwargs, Ok generated)]),
    post, generated, tsl.
  split; [|done].
  rewrite Hpost, H8, H7, Hl6, H4, H3, H2, H1.
  by rewrite <- !app_assoc.
Qed.

End PluginProps.

(** ** The theorems on the test doubles *)

Lemma _load_two_tier_local :
  (_load Mock.perform AutoTokenizer "test/id" (Path ".") on_disk).1
  = Ok (VObj "A").
Proof. vm_compute. reflexivity. Qed.

(** The claim C3 as it is written fails: with a kind that is not in
    [Loaders.mapping] in the request list, after a kind whose transfer to
    the device raises, [Loaders.load] raises that [RuntimeError] and no
    [ValueError]. *)
Lemma load_unknown_request_counterexample :
  let request := ["model"; "bogus"] in
  "bogus" ∈ request ∧ mapping !! "bogus" = None ∧
  ∃ e, (load FullDevice.perform "test/id" request (Path ".") "cuda"
          FullDevice.start).1 = Raise e
       ∧ is_ValueError e = false.
Proof.
  simpl. split; [|split].
  - rewrite !elem_of_cons. right. by left.
  - vm_compute. reflexivity.
  - exists (RuntimeError "CUDA out of memory"). split; vm_compute; reflexivity.
Qed.

(** The amended C3 on the doubles: the tokenizer is loaded from disk, then
    the unknown kind raises, and the log has the one call made for the
    tokenizer. *)
Lemma load_unknown_request_witness :
  load Mock.perform "test/id" (["tokenizer"] ++ "bogus" :: ["model"])
    (Path ".") "cpu" on_disk
  = (Raise (ValueError "Unknown request: bogus"),
     World (backend_of on_disk)
       [(FromPretrained AutoTokenizer (ByPath (Truediv (Path ".") "test/id")) None,
         Ok (VObj "A"))]).
Proof.
  rewrite (load_unknown_request Mock.perform "test/id" ["tokenizer"] "bogus"
             ["model"] (Path ".") "cpu" on_disk);
    [vm_compute; reflexivity | vm_compute; reflexivity].
Defined.

(** C4 fails on the code. With the loader of the test suite and a model
    that is neither in the store nor in the cache, [Loaders.load] raises
    the [FileNotFoundError] of the second attempt, not a [ValueError]. *)
Theorem load_missing_model_not_ValueError :
  load Mock.perform "test/id" ["tokenizer"] (Path ".") "cpu" Mock.start
  = (Raise (FileNotFoundError "Not in cache"),
     World (backend_of Mock.start)
       [(FromPretrained AutoTokenizer (ByPath (Truediv (Path ".") "test/id")) None,
         Raise (FileNotFoundError "Not in dir"));
        (FromPretrained AutoTokenizer (ById "test/id") (Some (Path ".")),
         Raise (FileNotFoundError "Not in cache"))])
  ∧ is_ValueError (FileNotFoundError "Not in cache") = false.
Proof. split; vm_compute; reflexivity. Qed.

(** C5 on an adapter that was never loaded. *)
Lemma use_before_load_raises_witness :
  _translate Mock.perform Mock.is_M2M100Tokenizer
    (Seq2SeqModel_init "test_seq2seq" "cpu" (Path "."))
    (VList [VStr "hello"]) "ja" "en" None Mock.start
  = (Raise (RuntimeError "Model not loaded"), Mock.start)
  ∧
  _ocr Mock.perform (VEDModel_init "test_ved" "cpu" (Path "."))
    (VImage "image_pillow") None None Mock.start
  = (Raise (RuntimeError "Model not loaded"), Mock.start).
Proof.
  split.
  - apply (proj1 (use_before_load_raises Mock.perform Mock.is_M2M100Tokenizer)).
    left. reflexivity.
  - apply (proj2 (use_before_load_raises Mock.perform Mock.is_M2M100Tokenizer)).
    left. reflexivity.
Defined.

(** C6 fails on the code. [_ocr] has no check of its argument: with the
    doubles of the test suite loaded, a string in place of the image goes
    to the image processor and [_ocr] returns the text decoded, where its
    docstring announces a [TypeError]. *)
Theorem ocr_not_an_image_no_TypeError :
  isinstance_Image (VStr "not an image") = false
  ∧ (_ocr Mock.perform Mock.ved_model (VStr "not an image") None None
       Mock.start).1 = Ok (VStr "abcde").
Proof. split; vm_compute; reflexivity. Qed.

(** The other half of C6 holds: [_translate] on a string raises. *)
Lemma translate_not_a_list_mock :
  _translate Mock.perform Mock.is_M2M100Tokenizer Mock.s2s_model
    (VStr "This is a test string.") "ja" "en" None Mock.start
  = (Raise (TypeError
       "tokens must be a list of strings or a list of list of strings"),
     Mock.start).
Proof. by apply translate_not_a_list. Qed.

(** C7 on the doubles: three objects loaded, one [.to] call, for the
    model. *)
Lemma load_device_transfer_witness :
  ∃ new,
    calls ved_loaded.2 = calls on_disk ++ new ∧
    length (loaded_of new) = length ved_request ∧
    moved_of new = transfers "cpu" ved_request (loaded_of new) ∧
    agree_off_device
      (<["image_processor" := VObj "A"]>
         (<["tokenizer" := VObj "A"]> (<["ved_model" := VNone]> ∅)))
      (as_loaded ∅ ved_request (loaded_of new)) ∧
    (∀ r, r ∈ ["tokenizer"; "image_processor"] → r ∉ accept_device).
Proof.
  apply (load_device_transfer Mock.perform "test/id" ved_request (Path ".")
           "cpu" _ on_disk ved_loaded.2).
  vm_compute. reflexivity.
Defined.

(** C9 on the doubles. *)
Lemma translate_empty_list_witness :
  _translate Mock.perform Mock.is_M2M100Tokenizer Mock.s2s_model (VList [])
    "ja" "en" None Mock.start
  = (Ok (VStr ""), Mock.start).
Proof.
  apply (translate_empty_list Mock.perform Mock.is_M2M100Tokenizer
           Mock.s2s_model "ja" "en" None Mock.start);
    discriminate.
Defined.

Example translate_one_line :
  (_translate Mock.perform Mock.is_M2M100Tokenizer Mock.s2s_model
     (VList one_line) "ja" "en" None Mock.start).1
  = Ok (VStr "This is a test string.").
Proof. vm_compute. reflexivity. Qed.

Example translate_two_lines :
  (_translate Mock.perform Mock.is_M2M100Tokenizer Mock.s2s_model
     (VList two_lines) "ja" "en" None Mock.start).1
  = Ok (VList [VStr "This is a test string."; VStr "hello"]).
Proof. vm_compute. reflexivity. Qed.

(** C10 on the doubles, for a list of lists: the decoded list is the
    result. *)
Lemma translate_result_shape_witness :
  let run := _translate Mock.perform Mock.is_M2M100Tokenizer Mock.s2s_model
               (VList two_lines) "ja" "en" None Mock.start in
  ∃ pre post generated tsl,
    calls run.2 = calls Mock.start ++ pre
      ++ (BatchDecode (tsl_tokenizer Mock.s2s_model) generated, Ok tsl) :: post ∧
    forallb is_EmptyCache post = true ∧
    VList [VStr "This is a test string."; VStr "hello"] = tsl.
Proof.
  apply (translate_result_shape Mock.perform Mock.is_M2M100Tokenizer
           Mock.s2s_model (VList [VStr "This is a test"; VStr "string."])
           [VList [VStr "hello"]] "ja" "en" None Mock.start);
    [discriminate | discriminate | vm_compute; reflexivity].
Defined.

(** ** Further properties of [get_mnt] *)

(** X1. When the lower cap exceeds the upper one, [get_mnt] raises its
    [ValueError] for every token count, also one too large for a float:
    the caps are checked before the product is formed. *)
Lemma get_mnt_caps_inverted (ntok : Z) (options : gmap string num)
    (mn mx : Z) (ratio : spec_float) :
  py_int (dict_get options "min_max_new_tokens" (NInt 20)) = Ok mn →
  py_int (dict_get options "max_max_new_tokens" (NInt 512)) = Ok mx →
  py_float (dict_get options "max_new_tokens_ratio" (NFloat float_3)) = Ok ratio →
  mx < mn →
  get_mnt ntok options
  = Raise (ValueError "min_max_new_tokens must be less than max_max_new_tokens").
Proof.
  intros Hmn Hmx Hr Hlt. unfold get_mnt. rewrite Hmn, Hmx, Hr. simpl.
  destruct (Z.ltb_spec mx mn); [done|lia].
Qed.

Lemma get_mnt_caps_inverted_witness :
  get_mnt (2 ^ 2000) {["min_max_new_tokens" := NInt 600]}
  = Raise (ValueError "min_max_new_tokens must be less than max_max_new_tokens").
Proof.
  apply (get_mnt_caps_inverted (2 ^ 2000) {["min_max_new_tokens" := NInt 600]}
           600 512 float_3);
    [vm_compute; reflexivity | vm_compute; reflexivity
    | vm_compute; reflexivity | lia].
Defined.

(** X2. Whatever [get_mnt] returns lies between the two caps, as [int]
    reads them from the options. *)
Lemma get_mnt_within_caps (ntok : Z) (options : gmap string num) (mnt : Z) :
  get_mnt ntok options = Ok mnt →
  ∃ mn mx,
    py_int (dict_get options "min_max_new_tokens" (NInt 20)) = Ok mn ∧
    py_int (dict_get options "max_max_new_tokens" (NInt 512)) = Ok mx ∧
    mn ≤ mnt ≤ mx.
Proof.
  unfold get_mnt.
  destruct (py_int (dict_get options "min_max_new_tokens" _)) as [mn|] eqn:Hmn;
    [|done].
  destruct (py_int (dict_get options "max_max_new_tokens" _)) as [mx|] eqn:Hmx;
    [|done].
  destruct (py_float _) as [ratio|]; [|done]. simpl.
  destruct (Z.ltb_spec mx mn) as [|Hle]; [done|].
  unfold float_mul_int. destruct (int_to_float ntok) as [fntok|]; [|done].
  simpl. intros H. exists mn, mx. split; [done|]. split; [done|].
  destruct (has_value (SFmul prec emax ratio fntok)) eqn:Hv.
  - rewrite py_clamp_value in H by done. injection H as <-.
    by apply clamp_trunc_within.
  - rewrite py_clamp_no_value in H by done. injection H as <-.
    by apply mnt_spec_within.
Qed.

Lemma get_mnt_within_caps_witness :
  ∃ mn mx,
    py_int (dict_get (∅ : gmap string num) "min_max_new_tokens" (NInt 20)) = Ok mn ∧
    py_int (dict_get (∅ : gmap string num) "max_max_new_tokens" (NInt 512)) = Ok mx ∧
    mn ≤ 30 ≤ mx.
Proof.
  apply (get_mnt_within_caps 10 ∅ 30). vm_compute. reflexivity.
Defined.

(** X3. With the default options and up to 4095 input tokens, the number
    of new tokens is three times the input, kept between 20 and 512. *)
Lemma get_mnt_defaults (ntok : Z) :
  0 ≤ ntok < 4096 → get_mnt ntok ∅ = Ok (default_mnt ntok).
Proof.
  intros Hn.
  assert (Hall : forallb (λ n, match get_mnt n ∅ with
                              | Ok r => r =? default_mnt n
                              | Raise _ => false
                              end) (seqZ 0 4096) = true)
    by (vm_compute; reflexivity).
  rewrite forallb_forall in Hall.
  specialize (Hall ntok). rewrite <- list_elem_of_In, elem_of_seqZ in Hall.
  specialize (Hall ltac:(lia)).
  destruct (get_mnt ntok ∅) as [r|]; [|done].
  apply Z.eqb_eq in Hall. by rewrite Hall.
Qed.

Lemma get_mnt_defaults_witness : get_mnt 100 ∅ = Ok (default_mnt 100).
Proof. apply (get_mnt_defaults 100). lia. Defined.

(** X4. For no input token the result is the lower cap, when that cap is
    not negative, whatever the ratio is: finite, infinite or NaN. *)
Lemma get_mnt_no_token (options : gmap string num) (mn mx : Z)
    (ratio : spec_float) :
  py_int (dict_get options "min_max_new_tokens" (NInt 20)) = Ok mn →
  py_int (dict_get options "max_max_new_tokens" (NInt 512)) = Ok mx →
  py_float (dict_get options "max_new_tokens_ratio" (NFloat float_3)) = Ok ratio →
  0 ≤ mn ≤ mx →
  get_mnt 0 options = Ok mn.
Proof.
  intros Hmn Hmx Hr [H0 Hle]. unfold get_mnt. rewrite Hmn, Hmx, Hr. simpl.
  destruct (Z.ltb_spec mx mn) as [|_]; [lia|].
  change (float_mul_int ratio 0) with (Ok (SFmul prec emax ratio (S754_zero false))).
  simpl.
  assert (Hmin : py_int (py_min (NInt mx) (NInt mn)) = Ok mn).
  { unfold py_min. simpl. destruct (Z.ltb_spec mn mx); simpl; f_equal; lia. }
  assert (Hz : ∀ s, py_max (NInt mn) (NFloat (S754_zero s)) = NInt mn).
  { intros s. unfold py_max, py_gt. simpl.
    rewrite bool_decide_eq_false_2; [done|].
    change 0%Q with (inject_Z 0). rewrite Qcompare_inject_Z.
    intros Hc. assert (Hc' := Hc : mn < 0). lia. }
  destruct ratio as [s | s | | s m e]; simpl; rewrite ?Hz; try exact Hmin.
Qed.

Lemma get_mnt_no_token_witness :
  get_mnt 0 {["max_new_tokens_ratio" := NFloat (S754_infinity false)]} = Ok 20.
Proof.
  apply (get_mnt_no_token {["max_new_tokens_ratio" := NFloat (S754_infinity false)]}
           20 512 (S754_infinity false));
    [vm_compute; reflexivity | vm_compute; reflexivity
    | vm_compute; reflexivity | lia].
Defined.

(** ** Further properties of the loader and of the adapters *)

Section PluginMore.

Context {backend : Type}.
Variable perform : call → backend → res value * backend.
Variable is_M2M100Tokenizer : value → bool.

Local Abbreviation M := (M backend).

(** X5. A [from_pretrained] that returns [None] from the local path is not
    retried from the registry: after the entries before it are loaded,
    [Loaders.load] raises [ValueError('Could not load model: ...')], with
    that one call made for the entry and no transfer to the device. *)
Lemma load_None_is_ValueError (model_id : string) (pre : list string)
    (r : string) (post : list string) (root : path) (dev : string)
    (l : loader) (acc : gmap string value) (w w1 : world backend)
    (b1 : backend) :
  mapping !! r = Some l →
  load perform model_id pre root dev w = (Ok acc, w1) →
  perform (FromPretrained l (ByPath (Truediv root model_id)) None) (backend_of w1)
  = (Ok VNone, b1) →
  load perform model_id (pre ++ r :: post) root dev w
  = (Raise (ValueError ("Could not load model: " +:+ model_id)),
     World b1 (calls w1 ++ [(FromPretrained l (ByPath (Truediv root model_id)) None,
                             Ok VNone)])).
Proof.
  intros Hr Hpre Hnone. unfold load in *. rewrite for_each_app, Hpre.
  simpl. rewrite run_bind. unfold load_entry. rewrite Hr, run_bind.
  by rewrite (_load_local _ _ _ _ _ _ _ Hnone).
Qed.

(** What one turn of the loop of [Loaders.load] calls, whether it raises or
    not: at most two [from_pretrained] and one [.to]. *)
Lemma load_entry_events (model_id : string) (root : path) (dev r : string)
    (acc : gmap string value) (w : world backend) :
  ∃ ev,
    calls (load_entry perform model_id root dev r acc w).2 = calls w ++ ev ∧
    forallb is_load_event ev = true ∧ (length ev ≤ 3)%nat.
Proof.
  unfold load_entry. destruct (mapping !! r) as [l|].
  2: { exists []. simpl. rewrite app_nil_r. repeat split; [done..|lia]. }
  rewrite run_bind.
  assert (∃ out w1 ev, _load perform l model_id root w = (out, w1) ∧
            calls w1 = calls w ++ ev ∧ forallb is_load_event ev = true ∧
            (length ev ≤ 2)%nat) as (out & w1 & ev & -> & Hev & Hall & Hlen).
  { destruct (perform (FromPretrained l (ByPath (Truediv root model_id)) None)
                (backend_of w)) as [[a|e] b1] eqn:H1.
    - rewrite (_load_local _ _ _ _ _ _ _ H1).
      eexists _, _, [_]. repeat split; [done..|simpl; lia].
    - destruct (perform (FromPretrained l (ById model_id) (Some root)) b1)
        as [o b2] eqn:H2.
      rewrite (_load_fallback _ _ _ _ _ _ _ _ _ H1 H2).
      eexists _, _, [_; _]. repeat split; [done..|simpl; lia]. }
  destruct out as [cls|e].
  2: { exists ev. simpl. repeat split; [done..|lia]. }
  destruct (is_None cls).
  { exists ev. simpl. repeat split; [done..|lia]. }
  rewrite run_bind. case_bool_decide.
  - rewrite run_do_call.
    destruct (perform (To cls dev) (backend_of w1)) as [out b2]; simpl.
    exists (ev ++ [(To cls dev, out)]).
    rewrite Hev, <- app_assoc, forallb_app, Hall, length_app.
    split; [by destruct out|]. split; [reflexivity | simpl; lia].
  - rewrite run_ret. simpl. exists ev. repeat split; [done..|lia].
Qed.

(** X6. Whether it returns or raises, [Loaders.load] calls nothing but
    [from_pretrained] and [.to], and at most three times per entry of the
    request list. *)
Lemma load_calls_bounded (model_id : string) (request : list string)
    (root : path) (dev : string) (w : world backend) :
  ∃ new,
    calls (load perform model_id request root dev w).2 = calls w ++ new ∧
    forallb is_load_event new = true ∧
    (length new ≤ 3 * length request)%nat.
Proof.
  unfold load. generalize (∅ : gmap string value) as acc. revert w.
  induction request as [|r request IH]; intros w acc.
  - exists []. simpl. rewrite app_nil_r. repeat split; [done..|lia].
  - simpl. rewrite run_bind.
    destruct (load_entry_events model_id root dev r acc w)
      as (ev & Hev & Hall & Hlen).
    destruct (load_entry perform model_id root dev r acc w) as [[acc'|e] w1].
    + destruct (IH w1 acc') as (new & Hnew & Hall' & Hlen').
      exists (ev ++ new). simpl in Hev.
      rewrite Hnew, Hev, <- app_assoc, forallb_app, Hall, Hall', length_app.
      repeat split; [done..|lia].
    + exists ev. simpl in *. repeat split; [done..|lia].
Qed.

Lemma load_loop_keys (model_id : string) (root : path) (dev : string)
    (request : list string) :
  ∀ (acc res : gmap string value) (w w' : world backend),
    for_each request (load_entry perform model_id root dev) acc w = (Ok res, w') →
    ∀ r, is_Some (res !! r) ↔ is_Some (acc !! r) ∨ r ∈ request.
Proof.
  clear is_M2M100Tokenizer.
  induction request as [|r0 request IH]; intros acc res w0 w' H r.
  - simpl in H. rewrite run_ret in H. injection H as <- <-.
    rewrite elem_of_nil. tauto.
  - simpl in H. apply bind_Ok in H as (acc' & w1 & Hentry & H).
    apply load_entry_Ok in Hentry as (ev & obj & cls & _ & _ & _ & -> & _).
    rewrite (IH _ _ _ _ H r), elem_of_cons.
    destruct (decide (r0 = r)) as [->|Hne].
    + rewrite lookup_insert_eq. split; [by auto|]. intros _. left. by eexists.
    + rewrite lookup_insert_ne by done. split; [tauto|].
      intros [?|[->|?]]; tauto.
Qed.

Lemma load_has_key (model_id : string) (request : list string)
    (root : path) (dev : string) (res : gmap string value)
    (w w' : world backend) (r : string) :
  load perform model_id request root dev w = (Ok res, w') →
  r ∈ request → is_Some (res !! r).
Proof.
  intros H Hr. apply (load_loop_keys _ _ _ _ _ _ _ _ H r). by right.
Qed.

(** X7. The dict that [Loaders.load] returns has a value for exactly the
    kinds of the request list. *)
Lemma load_result_keys (model_id : string) (request : list string)
    (root : path) (dev : string) (res : gmap string value)
    (w w' : world backend) :
  load perform model_id request root dev w = (Ok res, w') →
  ∀ r, is_Some (res !! r) ↔ r ∈ request.
Proof.
  intros H r. rewrite (load_loop_keys _ _ _ _ _ _ _ _ H r), lookup_empty.
  split; [|by auto]. intros [[? ?]|?]; done.
Qed.

(** *** The adapters' [load] *)

Lemma load_entry_Ok_value (model_id : string) (root : path) (dev r : string)
    (acc res1 : gmap string value) (w w1 : world backend) :
  load_entry perform model_id root dev r acc w = (Ok res1, w1) →
  ∃ cls, res1 = <[r := cls]> acc ∧ (r ∉ accept_device → cls ≠ VNone).
Proof.
  unfold load_entry. destruct (mapping !! r) as [l|]; [|done].
  intros H. apply bind_Ok in H as (obj & w0 & _ & H).
  destruct (is_None obj) eqn:Hobj; [done|].
  apply bind_Ok in H as (cls & w2 & Hto & H).
  rewrite run_ret in H. injection H as <- <-.
  exists cls. split; [done|]. intros Hr.
  rewrite bool_decide_eq_false_2 in Hto by done.
  rewrite run_ret in Hto. injection Hto as <- <-. by destruct obj.
Qed.

(** The loop leaves the entries of the kinds it does not meet as they
    are. *)
Lemma load_loop_frame (model_id : string) (root : path) (dev : string)
    (request : list string) :
  ∀ (acc res : gmap string value) (w w' : world backend) (r : string),
    for_each request (load_entry perform model_id root dev) acc w = (Ok res, w') →
    r ∉ request → res !! r = acc !! r.
Proof.
  induction request as [|r0 request IH]; intros acc res w w' r H Hr.
  - simpl in H. rewrite run_ret in H. by injection H as <- <-.
  - simpl in H. apply bind_Ok in H as (acc' & w1 & Hentry & H).
    apply load_entry_Ok_value in Hentry as (cls & -> & _).
    apply not_elem_of_cons in Hr as [Hne Hr].
    rewrite (IH _ _ _ _ _ H Hr). by rewrite lookup_insert_ne.
Qed.

(** An object of a kind that is not moved to the device is in the dict as
    loaded, and [load] has checked that it is not [None]. *)
Lemma load_loop_off_device (model_id : string) (root : path) (dev : string)
    (request : list string) :
  ∀ (acc res : gmap string value) (w w' : world backend) (r : string),
    for_each request (load_entry perform model_id root dev) acc w = (Ok res, w') →
    r ∈ request → r ∉ accept_device →
    ∃ v, res !! r = Some v ∧ v ≠ VNone.
Proof.
  induction request as [|r0 request IH]; intros acc res w w' r H Hin Hoff.
  - by apply elem_of_nil in Hin.
  - simpl in H. apply bind_Ok in H as (acc' & w1 & Hentry & H).
    destruct (decide (r ∈ request)) as [Hr|Hr]; [by eapply IH|].
    apply elem_of_cons in Hin as [->|Hin]; [|done].
    apply load_entry_Ok_value in Hentry as (cls & -> & Hcls).
    exists cls. rewrite (load_loop_frame _ _ _ _ _ _ _ _ _ H Hr).
    rewrite lookup_insert_eq. auto.
Qed.

Lemma dict_item_Some (d : gmap string value) (key : string) :
  is_Some (d !! key) → ∃ v, dict_item d key = Ok v ∧ d !! key = Some v.
Proof. intros [v Hv]. exists v. unfold dict_item. by rewrite Hv. Qed.

(** X8. [HugginfaceSeq2SeqModel.load] keeps [name], [dev] and [root].
    When [Loaders.load] raises, the adapter is left as it was and the
    exception is passed on.  Otherwise [load] returns: it never raises a
    [KeyError] of its own, the model is what [Loaders.load] has under
    ['seq2seq'], the tokenizer what it has under ['tokenizer'], and the
    tokenizer is not [None]. *)
Lemma Seq2SeqModel_load_outcome (self self' : Seq2SeqModel)
    (w w' : world backend) (out : res unit) :
  Seq2SeqModel_load perform self w = (out, self', w') →
  tsl_name self' = tsl_name self ∧ tsl_dev self' = tsl_dev self ∧
  tsl_root self' = tsl_root self ∧
  match load perform (tsl_name self) ["seq2seq"; "tokenizer"]
          (tsl_root self) (tsl_dev self) w with
  | (Ok res, w1) =>
      out = Ok tt ∧ w' = w1 ∧
      res !! "seq2seq" = Some (tsl_model self') ∧
      res !! "tokenizer" = Some (tsl_tokenizer self') ∧
      tsl_tokenizer self' ≠ VNone
  | (Raise e, w1) => out = Raise e ∧ w' = w1 ∧ self' = self
  end.
Proof.
  unfold Seq2SeqModel_load.
  destruct (load perform _ _ _ _ w) as [[res|e] w1] eqn:Hload.
  2: { by intros [= <- <- <-]. }
  pose proof (λ r, load_has_key _ _ _ _ _ _ _ r Hload) as Hkeys.
  destruct (dict_item_Some res "seq2seq") as (model & -> & Hm).
  { apply Hkeys. rewrite !elem_of_cons. by left. }
  destruct (dict_item_Some res "tokenizer") as (tokenizer & -> & Ht).
  { apply Hkeys. rewrite !elem_of_cons. right. by left. }
  simpl. intros [= <- <- <-]. simpl. repeat split; try done.
  destruct (load_loop_off_device _ _ _ _ _ _ _ _ "tokenizer" Hload)
    as (v & Hv & Hnot).
  - rewrite !elem_of_cons. right. by left.
  - unfold accept_device. rewrite !elem_of_cons, elem_of_nil.
    intros [?|[?|[?|?]]]; done.
  - congruence.
Qed.

(** X9. The same for [HugginfaceVEDModel.load]: here the tokenizer and the
    image processor are not [None] after a [load] that returns. *)
Lemma VEDModel_load_outcome (self self' : VEDModel)
    (w w' : world backend) (out : res unit) :
  VEDModel_load perform self w = (out, self', w') →
  ocr_name self' = ocr_name self ∧ ocr_dev self' = ocr_dev self ∧
  ocr_root self' = ocr_root self ∧
  match load perform (ocr_name self) ["ved_model"; "tokenizer"; "image_processor"]
          (ocr_root self) (ocr_dev self) w with
  | (Ok res, w1) =>
      out = Ok tt ∧ w' = w1 ∧
      res !! "ved_model" = Some (ocr_model self') ∧
      res !! "tokenizer" = Some (ocr_tokenizer self') ∧
      res !! "image_processor" = Some (ocr_image_processor self') ∧
      ocr_tokenizer self' ≠ VNone ∧ ocr_image_processor self' ≠ VNone
  | (Raise e, w1) => out = Raise e ∧ w' = w1 ∧ self' = self
  end.
Proof.
  unfold VEDModel_load.
  destruct (load perform _ _ _ _ w) as [[res|e] w1] eqn:Hload.
  2: { by intros [= <- <- <-]. }
  pose proof (λ r, load_has_key _ _ _ _ _ _ _ r Hload) as Hkeys.
  destruct (dict_item_Some res "ved_model") as (model & -> & Hm).
  { apply Hkeys. rewrite !elem_of_cons. by left. }
  destruct (dict_item_Some res "tokenizer") as (tokenizer & -> & Ht).
  { apply Hkeys. rewrite !elem_of_cons. right. by left. }
  destruct (dict_item_Some res "image_processor") as (ip & -> & Hi).
  { apply Hkeys. rewrite !elem_of_cons. right. right. by left. }
  simpl. intros [= <- <- <-]. simpl. repeat split; try done.
  - destruct (load_loop_off_device _ _ _ _ _ _ _ _ "tokenizer" Hload)
      as (v & Hv & Hnot).
    + rewrite !elem_of_cons. right. by left.
    + unfold accept_device. rewrite !elem_of_cons, elem_of_nil.
      intros [?|[?|[?|?]]]; done.
    + congruence.
  - destruct (load_loop_off_device _ _ _ _ _ _ _ _ "image_processor" Hload)
      as (v & Hv & Hnot).
    + rewrite !elem_of_cons. right. right. by left.
    + unfold accept_device. rewrite !elem_of_cons, elem_of_nil.
      intros [?|[?|[?|?]]]; done.
    + congruence.
Qed.

(** *** [unload] and the life cycle *)

Lemma finish_self {Self A : Type} (s : Self) (m : M A) (w : world backend) :
  (finish s m w).1.2 = s.
Proof. unfold finish. by destruct (m w). Qed.

Lemma Seq2SeqModel_unload_self (self : Seq2SeqModel) (w : world backend) :
  (Seq2SeqModel_unload perform self w).1.2 = Seq2SeqModel_released self.
Proof.
  destruct self as [name dev root tokenizer model].
  unfold Seq2SeqModel_unload. rewrite finish_self.
  by destruct model, tokenizer.
Qed.

Lemma VEDModel_unload_self (self : VEDModel) (w : world backend) :
  (VEDModel_unload perform self w).1.2 = VEDModel_released self.
Proof.
  destruct self as [name dev root tokenizer model image_processor].
  unfold VEDModel_unload. rewrite finish_self.
  by destruct model, tokenizer, image_processor.
Qed.

(** X10. After [unload], in whatever state the adapter was and whether or
    not emptying the cache raised, [_translate] and [_ocr] raise
    [RuntimeError('Model not loaded')] and call nothing. *)
Lemma use_after_unload_raises :
  (∀ (self : Seq2SeqModel) tokens src_lang dst_lang options
     (w w2 : world backend),
     _translate perform is_M2M100Tokenizer
       (Seq2SeqModel_unload perform self w).1.2
       tokens src_lang dst_lang options w2
     = (Raise (RuntimeError "Model not loaded"), w2))
  ∧
  (∀ (self : VEDModel) img lang options (w w2 : world backend),
     _ocr perform (VEDModel_unload perform self w).1.2 img lang options w2
     = (Raise (RuntimeError "Model not loaded"), w2)).
Proof.
  split.
  - intros. by rewrite Seq2SeqModel_unload_self.
  - intros. by rewrite VEDModel_unload_self.
Qed.

(** X11. [unload] calls the library only on the cuda device, and then
    once, to empty the cache; on any other device it calls nothing and
    cannot raise. *)
Lemma unload_calls :
  (∀ (self : Seq2SeqModel) (w : world backend),
     if String.eqb (tsl_dev self) "cuda" then
       calls (Seq2SeqModel_unload perform self w).2
       = calls w ++ [(EmptyCache, (perform EmptyCache (backend_of w)).1)]
     else
       Seq2SeqModel_unload perform self w
       = (Ok tt, Seq2SeqModel_released self, w))
  ∧
  (∀ (self : VEDModel) (w : world backend),
     if String.eqb (ocr_dev self) "cuda" then
       calls (VEDModel_unload perform self w).2
       = calls w ++ [(EmptyCache, (perform EmptyCache (backend_of w)).1)]
     else
       VEDModel_unload perform self w = (Ok tt, VEDModel_released self, w)).
Proof.
  assert (Hcache : ∀ dev (w : world backend),
            if String.eqb dev "cuda" then
              calls (empty_cache_if_cuda perform dev w).2
              = calls w ++ [(EmptyCache, (perform EmptyCache (backend_of w)).1)]
            else empty_cache_if_cuda perform dev w = (Ok tt, w)).
  { intros dev w. unfold empty_cache_if_cuda.
    destruct (String.eqb dev "cuda"); [|done].
    rewrite run_bind, run_do_call.
    by destruct (perform EmptyCache (backend_of w)) as [[v|e] b]. }
  split.
  - intros [name dev root tokenizer model] w. simpl.
    specialize (Hcache dev w). unfold Seq2SeqModel_unload, finish.
    replace (tsl_dev _) with dev by (by destruct model, tokenizer).
    destruct (String.eqb dev "cuda").
    + by destruct (empty_cache_if_cuda perform dev w).
    + rewrite Hcache. unfold Seq2SeqModel_released.
      by destruct model, tokenizer.
  - intros [name dev root tokenizer model image_processor] w. simpl.
    specialize (Hcache dev w). unfold VEDModel_unload, finish.
    replace (ocr_dev _) with dev by (by destruct model, tokenizer, image_processor).
    destruct (String.eqb dev "cuda").
    + by destruct (empty_cache_if_cuda perform dev w).
    + rewrite Hcache. unfold VEDModel_released.
      by destruct model, tokenizer, image_processor.
Qed.

(** *** The calls of [_translate] and of [_ocr] *)

Lemma empty_cache_if_cuda_calls (dev : string) (u : unit) (w w' : world backend) :
  empty_cache_if_cuda perform dev w = (Ok u, w') →
  ∃ cache_calls,
    calls w' = calls w ++ cache_calls ∧
    if String.eqb dev "cuda" then ∃ r, cache_calls = [(EmptyCache, Ok r)]
    else cache_calls = [].
Proof.
  unfold empty_cache_if_cuda. destruct (String.eqb dev "cuda").
  - intros H. apply bind_Ok in H as (v & w1 & Hc & H).
    rewrite run_ret in H. injection H as _ <-.
    apply do_call_Ok in Hc. eauto.
  - rewrite run_ret. intros [= _ <-]. exists []. by rewrite app_nil_r.
Qed.

(** X12. The calls of a translation that returns, for a non-empty list on
    a loaded model, in this order: the source language is set, the tokens
    are encoded, the width [ntok] of the encoding is read, the encoding is
    moved to the device, the target language id is asked for exactly when
    the tokenizer is an [M2M100Tokenizer], [generate] runs on the encoding
    with [max_new_tokens = get_mnt(ntok, options)] (and the language id as
    [forced_bos_token_id]), the output is decoded, and the cache is
    emptied exactly on cuda. *)
Lemma translate_calls (self : Seq2SeqModel) (t0 : value) (rest : list value)
    src_lang dst_lang options (w w' : world backend) (v : value) :
  tsl_model self ≠ VNone → tsl_tokenizer self ≠ VNone →
  _translate perform is_M2M100Tokenizer self (VList (t0 :: rest))
    src_lang dst_lang options w = (Ok v, w') →
  ∃ r1 encoded ntok r4 mnt lang_calls kwargs generated tsl cache_calls,
    get_mnt ntok (default ∅ options) = Ok mnt ∧
    calls w' =
      calls w
      ++ [(SetSrcLang (tsl_tokenizer self) src_lang, Ok r1);
          (Tokenize (tsl_tokenizer self) (VList (t0 :: rest)), Ok encoded);
          (InputIdsWidth encoded, Ok (VInt ntok));
          (To encoded (tsl_dev self), Ok r4)]
      ++ lang_calls
      ++ [(Generate (tsl_model self) encoded
             (("max_new_tokens", VInt mnt) :: kwargs), Ok generated);
          (BatchDecode (tsl_tokenizer self) generated, Ok tsl)]
      ++ cache_calls ∧
    (if is_M2M100Tokenizer (tsl_tokenizer self)
     then ∃ id, lang_calls = [(GetLangId (tsl_tokenizer self) dst_lang, Ok id)]
                ∧ kwargs = [("forced_bos_token_id", id)]
     else lang_calls = [] ∧ kwargs = []) ∧
    (if String.eqb (tsl_dev self) "cuda"
     then ∃ r, cache_calls = [(EmptyCache, Ok r)] else cache_calls = []).
Proof.
  intros Hm Ht. unfold _translate.
  replace (is_None (tsl_model self) || is_None (tsl_tokenizer self)) with false
    by (destruct (tsl_model self); [done|..]; by (destruct (tsl_tokenizer self))).
  simpl. intros H.
  apply bind_Ok in H as (r1 & w1 & H1 & H). apply do_call_Ok in H1.
  apply bind_Ok in H as (encoded & w2 & H2 & H). apply do_call_Ok in H2.
  apply bind_Ok in H as (ntokv & w3 & H3 & H). apply do_call_Ok in H3.
  apply bind_Ok in H as (r4 & w4 & H4 & H). apply do_call_Ok in H4.
  apply bind_Ok in H as (mnt & w5 & H5 & H).
  destruct ntokv as [| |ntok| | |]; try done.
  unfold lift in H5. injection H5 as Hmnt <-.
  apply bind_Ok in H as (kw & w6 & H6 & H).
  assert (∃ lang_calls kwargs,
            calls w6 = calls w4 ++ lang_calls ∧
            kw = ("max_new_tokens", VInt mnt) :: kwargs ∧
            if is_M2M100Tokenizer (tsl_tokenizer self)
            then ∃ id, lang_calls = [(GetLangId (tsl_tokenizer self) dst_lang, Ok id)]
                       ∧ kwargs = [("forced_bos_token_id", id)]
            else lang_calls = [] ∧ kwargs = [])
    as (lang_calls & kwargs & Hl6 & -> & Hlang).
  { destruct (is_M2M100Tokenizer _).
    - apply bind_Ok in H6 as (id & w6' & Hid & H6). apply do_call_Ok in Hid.
      rewrite run_ret in H6. injection H6 as <- <-. eauto 10.
    - rewrite run_ret in H6. injection H6 as <- <-.
      exists [], []. by rewrite app_nil_r. }
  apply bind_Ok in H as (generated & w7 & H7 & H). apply do_call_Ok in H7.
  apply bind_Ok in H as (tsl & w8 & H8 & H). apply do_call_Ok in H8.
  apply bind_Ok in H as (out & w9 & H9 & H).
  apply bind_Ok in H as (u & w10 & H10 & H).
  rewrite run_ret in H. injection H as <- <-.
  apply empty_cache_if_cuda_calls in H10 as (cache_calls & Hcache & Hcuda).
  assert (w9 = w8) as ->.
  { destruct (isinstance_str t0).
    - unfold lift in H9. by injection H9.
    - rewrite run_ret in H9. by injection H9. }
  exists r1, encoded, ntok, r4, mnt, lang_calls, kwargs, generated, tsl, cache_calls.
  split; [done|]. split; [|done].
  rewrite Hcache, H8, H7, Hl6, H4, H3, H2, H1.
  by rewrite <- !app_assoc.
Qed.

(** X13. With options whose caps [get_mnt] rejects, a translation of a
    non-empty list on a loaded model never returns and never reaches
    [generate] or [batch_decode]: every call it makes comes before
    them. *)
Lemma translate_rejected_options (self : Seq2SeqModel) (t0 : value)
    (rest : list value) src_lang dst_lang options (w : world backend)
    (e0 : exn) :
  tsl_model self ≠ VNone → tsl_tokenizer self ≠ VNone →
  (∀ ntok, get_mnt ntok (default ∅ options) = Raise e0) →
  ∃ e new,
    (_translate perform is_M2M100Tokenizer self (VList (t0 :: rest))
       src_lang dst_lang options w).1 = Raise e ∧
    calls (_translate perform is_M2M100Tokenizer self (VList (t0 :: rest))
             src_lang dst_lang options w).2 = calls w ++ new ∧
    forallb (λ ev, negb (is_inference_event ev)) new = true.
Proof.
  intros Hm Ht Hopt. unfold _translate.
  replace (is_None (tsl_model self) || is_None (tsl_tokenizer self)) with false
    by (destruct (tsl_model self); [done|..]; by (destruct (tsl_tokenizer self))).
  simpl.
  rewrite run_bind, run_do_call.
  destruct (perform (SetSrcLang _ _) (backend_of w)) as [[r1|e1] b1]; simpl.
  2: { eexists _, [_]. split; [done|]. split; [done|reflexivity]. }
  rewrite run_bind, run_do_call. simpl.
  destruct (perform (Tokenize _ _) b1) as [[encoded|e2] b2]; simpl.
  2: { eexists _, [_; _]. split; [done|].
       split; [by rewrite <- !app_assoc|reflexivity]. }
  rewrite run_bind, run_do_call. simpl.
  destruct (perform (InputIdsWidth _) b2) as [[ntokv|e3] b3]; simpl.
  2: { eexists _, [_; _; _]. split; [done|].
       split; [by rewrite <- !app_assoc|reflexivity]. }
  rewrite run_bind, run_do_call. simpl.
  destruct (perform (To _ _) b3) as [[r4|e4] b4]; simpl.
  2: { eexists _, [_; _; _; _]. split; [done|].
       split; [by rewrite <- !app_assoc|reflexivity]. }
  rewrite run_bind.
  assert (∃ e, (match ntokv with
                | VInt n => lift (get_mnt n (default ∅ options))
                | _ => throw (TypeError "unsupported operand type(s) for *")
                end : M Z)
               = (λ w0, (Raise e, w0))) as [e ->].
  { destruct ntokv; try by eexists. unfold lift. rewrite Hopt. by eexists. }
  eexists _, [_; _; _; _]. split; [done|].
  split; [by rewrite <- !app_assoc|reflexivity].
Qed.

(** X14. The calls of an OCR that returns, on a loaded model, in this
    order: the image processor runs on the image, its pixel values are
    moved with [.cuda()] exactly on cuda, [generate] runs on them with no
    option, the output is decoded, and the cache is emptied exactly on
    cuda; the text returned is the first element of what was decoded. *)
Lemma ocr_calls (self : VEDModel) (img : value) lang options
    (w w' : world backend) (v : value) :
  ocr_model self ≠ VNone → ocr_tokenizer self ≠ VNone →
  ocr_image_processor self ≠ VNone →
  _ocr perform self img lang options w = (Ok v, w') →
  ∃ pixel_values cuda_calls on_device generated decoded cache_calls,
    subscript0 decoded = Ok v ∧
    calls w' =
      calls w
      ++ [(ImageProcess (ocr_image_processor self) img, Ok pixel_values)]
      ++ cuda_calls
      ++ [(Generate (ocr_model self) on_device [], Ok generated);
          (BatchDecode (ocr_tokenizer self) generated, Ok decoded)]
      ++ cache_calls ∧
    (if String.eqb (ocr_dev self) "cuda"
     then cuda_calls = [(Cuda pixel_values, Ok on_device)]
          ∧ ∃ r, cache_calls = [(EmptyCache, Ok r)]
     else cuda_calls = [] ∧ on_device = pixel_values ∧ cache_calls = []).
Proof.
  intros Hm Ht Hi. unfold _ocr.
  replace (is_None (ocr_model self) || is_None (ocr_tokenizer self)
           || is_None (ocr_image_processor self)) with false
    by (destruct (ocr_model self); [done|..];
        (destruct (ocr_tokenizer self); [done|..]);
        by (destruct (ocr_image_processor self))).
  simpl. intros H.
  apply bind_Ok in H as (pv & w1 & H1 & H). apply do_call_Ok in H1.
  apply bind_Ok in H as (pv' & w2 & H2 & H).
  apply bind_Ok in H as (generated & w3 & H3 & H). apply do_call_Ok in H3.
  apply bind_Ok in H as (decoded & w4 & H4 & H). apply do_call_Ok in H4.
  apply bind_Ok in H as (text & w5 & H5 & H).
  unfold lift in H5. injection H5 as Htext <-.
  apply bind_Ok in H as (u & w6 & H6 & H).
  rewrite run_ret in H. injection H as <- <-.
  apply empty_cache_if_cuda_calls in H6 as (cache_calls & Hcache & Hcuda).
  destruct (String.eqb (ocr_dev self) "cuda").
  - apply do_call_Ok in H2. destruct Hcuda as [r ->].
    exists pv, [(Cuda pv, Ok pv')], pv', generated, decoded, [(EmptyCache, Ok r)].
    split; [done|]. split; [|eauto].
    rewrite Hcache, H4, H3, H2, H1. by rewrite <- !app_assoc.
  - rewrite run_ret in H2. injection H2 as <- <-. subst cache_calls.
    exists pv, [], pv, generated, decoded, [].
    split; [done|]. split; [|done].
    rewrite Hcache, H4, H3, H1. by rewrite <- !app_assoc.
Qed.

End PluginMore.

(** ** The round trip of the translation double of tests/conftest.py *)













Lemma split_space_cons (s : string) :
  ∃ w ws, Mock.split_space s = w :: ws.
Proof.
  destruct s as [|c s]; simpl; [by eexists _, _|].
  destruct (Ascii.eqb c " "); [by eexists _, _|].
  destruct (Mock.split_space s); by eexists _, _.
Qed.

(** X16. Splitting a string at its spaces, as the tokenizer double does,
    and joining the pieces with a space, as its [batch_decode] does, gives
    the string back. *)
Lemma split_space_join (s : string) :
  String.concat " " (Mock.split_space s) = s.
Proof.
  induction s as [|c s IH]; [done|]. simpl.
  destruct (split_space_cons s) as (w & ws & Hs). rewrite Hs in *.
  destruct (Ascii.eqb c " ") eqn:Hc.
  - apply Ascii.eqb_eq in Hc as ->.
    change (String.concat " " (EmptyString :: w :: ws))
      with (String " " (String.concat " " (w :: ws))).
    by rewrite IH.
  - rewrite <- IH. by destruct ws.
Qed.

(** ** The further properties on the test doubles *)


Lemma load_None_is_ValueError_witness :
  load NoneLoader.perform "test/id" ([] ++ "tokenizer" :: ["model"])
    (Path ".") "cpu" NoneLoader.start
  = (Raise (ValueError "Could not load model: test/id"),
     World tt
       [(FromPretrained AutoTokenizer (ByPath (Truediv (Path ".") "test/id")) None,
         Ok VNone)]).
Proof.
  apply (load_None_is_ValueError NoneLoader.perform "test/id" [] "tokenizer"
           ["model"] (Path ".") "cpu" AutoTokenizer ∅ NoneLoader.start
           NoneLoader.start tt);
    [vm_compute; reflexivity | reflexivity | reflexivity].
Defined.

Lemma load_result_keys_witness :
  is_Some ((<["image_processor" := VObj "A"]>
              (<["tokenizer" := VObj "A"]>
                 (<["ved_model" := VNone]> (∅ : gmap string value))))
           !! "tokenizer")
  ↔ "tokenizer" ∈ ved_request.
Proof.
  apply (load_result_keys Mock.perform "test/id" ved_request (Path ".") "cpu"
           _ on_disk ved_loaded.2).
  vm_compute. reflexivity.
Defined.

(** The adapter as [__init__] leaves it, loaded from disk with the loader
    double: the tokenizer is the object loaded, and the model is the
    [None] that the double's [.to] returns. *)
Lemma Seq2SeqModel_load_outcome_witness :
  let self := Seq2SeqModel_init "test/id" "cpu" (Path ".") in
  let run := Seq2SeqModel_load Mock.perform self on_disk in
  tsl_name run.1.2 = "test/id" ∧ tsl_dev run.1.2 = "cpu" ∧
  tsl_root run.1.2 = Path "." ∧
  match load Mock.perform "test/id" ["seq2seq"; "tokenizer"] (Path ".") "cpu"
          on_disk with
  | (Ok res, w1) =>
      run.1.1 = Ok tt ∧ run.2 = w1 ∧
      res !! "seq2seq" = Some (tsl_model run.1.2) ∧
      res !! "tokenizer" = Some (tsl_tokenizer run.1.2) ∧
      tsl_tokenizer run.1.2 ≠ VNone
  | (Raise e, w1) => run.1.1 = Raise e ∧ run.2 = w1 ∧ run.1.2 = self
  end.
Proof.
  intros self run.
  apply (Seq2SeqModel_load_outcome Mock.perform self run.1.2 on_disk run.2
           run.1.1).
  vm_compute. reflexivity.
Defined.

Lemma VEDModel_load_outcome_witness :
  let self := VEDModel_init "test/id" "cpu" (Path ".") in
  let run := VEDModel_load Mock.perform self Mock.start in
  ocr_name run.1.2 = "test/id" ∧ ocr_dev run.1.2 = "cpu" ∧
  ocr_root run.1.2 = Path "." ∧
  match load Mock.perform "test/id" ved_request (Path ".") "cpu" Mock.start with
  | (Ok res, w1) =>
      run.1.1 = Ok tt ∧ run.2 = w1 ∧
      res !! "ved_model" = Some (ocr_model run.1.2) ∧
      res !! "tokenizer" = Some (ocr_tokenizer run.1.2) ∧
      res !! "image_processor" = Some (ocr_image_processor run.1.2) ∧
      ocr_tokenizer run.1.2 ≠ VNone ∧ ocr_image_processor run.1.2 ≠ VNone
  | (Raise e, w1) => run.1.1 = Raise e ∧ run.2 = w1 ∧ run.1.2 = self
  end.
Proof.
  intros self run.
  apply (VEDModel_load_outcome Mock.perform self run.1.2 Mock.start run.2
           run.1.1).
  vm_compute. reflexivity.
Defined.

Lemma translate_calls_witness :
  ∃ r1 encoded ntok r4 mnt lang_calls kwargs generated tsl cache_calls,
    get_mnt ntok (default ∅ None) = Ok mnt ∧
    calls (_translate Mock.perform Mock.is_M2M100Tokenizer Mock.s2s_model
             (VList one_line) "ja" "en" None Mock.start).2 =
      calls Mock.start
      ++ [(SetSrcLang (tsl_tokenizer Mock.s2s_model) "ja", Ok r1);
          (Tokenize (tsl_tokenizer Mock.s2s_model) (VList one_line), Ok encoded);
          (InputIdsWidth encoded, Ok (VInt ntok));
          (To encoded (tsl_dev Mock.s2s_model), Ok r4)]
      ++ lang_calls
      ++ [(Generate (tsl_model Mock.s2s_model) encoded
             (("max_new_tokens", VInt mnt) :: kwargs), Ok generated);
          (BatchDecode (tsl_tokenizer Mock.s2s_model) generated, Ok tsl)]
      ++ cache_calls ∧
    (if Mock.is_M2M100Tokenizer (tsl_tokenizer Mock.s2s_model)
     then ∃ id, lang_calls
                = [(GetLangId (tsl_tokenizer Mock.s2s_model) "en", Ok id)]
                ∧ kwargs = [("forced_bos_token_id", id)]
     else lang_calls = [] ∧ kwargs = []) ∧
    (if String.eqb (tsl_dev Mock.s2s_model) "cuda"
     then ∃ r, cache_calls = [(EmptyCache, Ok r)] else cache_calls = []).
Proof.
  apply (translate_calls Mock.perform Mock.is_M2M100Tokenizer Mock.s2s_model
           (VStr "This is a test") [VStr "string."] "ja" "en" None Mock.start
           _ (VStr "This is a test string."));
    [discriminate | discriminate | vm_compute; reflexivity].
Defined.

Lemma translate_rejected_options_witness :
  ∃ e new,
    (_translate Mock.perform Mock.is_M2M100Tokenizer Mock.s2s_model
       (VList one_line) "ja" "en" (Some inverted_caps) Mock.start).1 = Raise e ∧
    calls (_translate Mock.perform Mock.is_M2M100Tokenizer Mock.s2s_model
             (VList one_line) "ja" "en" (Some inverted_caps) Mock.start).2
    = calls Mock.start ++ new ∧
    forallb (λ ev, negb (is_inference_event ev)) new = true.
Proof.
  apply (translate_rejected_options Mock.perform Mock.is_M2M100Tokenizer
           Mock.s2s_model (VStr "This is a test") [VStr "string."] "ja" "en"
           (Some inverted_caps) Mock.start
           (ValueError "min_max_new_tokens must be less than max_max_new_tokens"));
    [discriminate | discriminate | intros ntok; reflexivity].
Defined.

Lemma ocr_calls_witness :
  ∃ pixel_values cuda_calls on_device generated decoded cache_calls,
    subscript0 decoded = Ok (VStr "abcde") ∧
    calls (_ocr Mock.perform ved_model_cuda (VImage "image_pillow") None None
             Mock.start).2 =
      calls Mock.start
      ++ [(ImageProcess (ocr_image_processor ved_model_cuda)
             (VImage "image_pillow"), Ok pixel_values)]
      ++ cuda_calls
      ++ [(Generate (ocr_model ved_model_cuda) on_device [], Ok generated);
          (BatchDecode (ocr_tokenizer ved_model_cuda) generated, Ok decoded)]
      ++ cache_calls ∧
    (if String.eqb (ocr_dev ved_model_cuda) "cuda"
     then cuda_calls = [(Cuda pixel_values, Ok on_device)]
          ∧ ∃ r, cache_calls = [(EmptyCache, Ok r)]
     else cuda_calls = [] ∧ on_device = pixel_values ∧ cache_calls = []).
Proof.
  apply (ocr_calls Mock.perform ved_model_cuda (VImage "image_pillow") None
           None Mock.start);
    [discriminate | discriminate | discriminate | vm_compute; reflexivity].
Defined.
